(** * CodeLLDB Cargo integration: a shallow embedding of [extension/cargo.ts]

    The development follows the class [Cargo]: artifact resolution
    ([getProgramFromArtifacts]), artifact collection from the JSON message
    stream ([getCargoArtifacts]), launch configuration synthesis
    ([getLaunchConfigs]), the line-oriented process driver ([runCargo]) and
    the pseudo-terminal [open] handler of [getProgramFromCargoConfig].

    Conventions.
    - A JavaScript value that may be [undefined] (or [null], where the code
      compares loosely with [!= undefined]) is an [option]; where the code
      tells [undefined] from [null] with [!==] it is a [Js.nullable].
    - Side effects are explicit: the output channel, the console and the
      calls received by a callback are lists of strings in emission order.
    - A thrown exception is the [Throw] case of [completion].
    - Functions that the file imports ([JSON.parse], [util.inspect],
      [formatError], [mergedEnvironment]) and the behaviour of the spawned
      process are the fields of the class [Platform]; every property holds
      for every platform. *)

From Stdlib Require Import ZArith Ascii String Lia.
From stdpp Require Import base option list strings gmap.

Local Open Scope Z_scope.
Local Open Scope string_scope.
Local Open Scope list_scope.

(** ** JavaScript strings *)

Module Js.

Definition LF : string := String (ascii_of_nat 10) EmptyString.
Definition CR : string := String (ascii_of_nat 13) EmptyString.
Definition CRLF : string := CR +:+ LF.
Definition DQUOTE : string := String (ascii_of_nat 34) EmptyString.

(** [s.startsWith(t)]: the [t.length] code units at position 0 are [t]. *)
Definition startsWith (s t : string) : bool :=
  if (String.length s <? String.length t)%nat then false
  else String.eqb (substring 0 (String.length t) s) t.

(** [s.endsWith(t)]: the [t.length] code units that end at [s.length]
    are [t]. *)
Definition endsWith (s t : string) : bool :=
  if (String.length s <? String.length t)%nat then false
  else String.eqb
         (substring (String.length s - String.length t) (String.length t) s) t.

(** [s.replace(/\n/g, by)]. *)
Fixpoint replaceNewlines (s by_ : string) : string :=
  match s with
  | EmptyString => EmptyString
  | String c rest =>
      if Ascii.eqb c (ascii_of_nat 10)
      then by_ +:+ replaceNewlines rest by_
      else String c (replaceNewlines rest by_)
  end.

(** [xs.join(sep)]. *)
Fixpoint join (sep : string) (xs : list string) : string :=
  match xs with
  | [] => EmptyString
  | [x] => x
  | x :: rest => x +:+ sep +:+ join sep rest
  end.

(** [xs.indexOf(x)]: the first index holding [x], or [-1]. *)
Fixpoint indexOf_from (i : Z) (xs : list string) (x : string) : Z :=
  match xs with
  | [] => -1
  | y :: rest => if String.eqb y x then i else indexOf_from (i + 1) rest x
  end.

Definition indexOf (xs : list string) (x : string) : Z := indexOf_from 0 xs x.

(** [xs.includes(x)]. *)
Definition includes (xs : list string) (x : string) : bool :=
  existsb (fun y => String.eqb y x) xs.

(** [xs.splice(start, 0, items...)] for [0 <= start <= xs.length]: the
    array after the in-place insertion. *)
Definition splice_insert (xs : list string) (start : Z) (items : list string)
  : list string :=
  take (Z.to_nat start) xs ++ items ++ drop (Z.to_nat start) xs.

(** A value that is [undefined], [null] or present. *)
Inductive nullable (A : Type) : Type :=
| Undefined
| Null
| Value (a : A).
Arguments Undefined {A}.
Arguments Null {A}.
Arguments Value {A} a.

(** An [Error] object: its message, the [code] property Node puts on
    system errors, and the [cause] that [ErrorWithCause] records. *)
Inductive error : Type :=
| MkError (message : string) (code : option string)
| ErrorWithCause (message : string) (cause : error).

Definition Error (message : string) : error := MkError message None.
Definition TypeError (message : string) : error := MkError message None.

Definition code (e : error) : option string :=
  match e with MkError _ c => c | ErrorWithCause _ _ => None end.
Definition message (e : error) : string :=
  match e with MkError m _ => m | ErrorWithCause m _ => m end.
Definition cause (e : error) : option error :=
  match e with MkError _ _ => None | ErrorWithCause _ c => Some c end.

(** Truthiness of a string-or-undefined value: [undefined], [null] and the
    empty string are falsy. *)
Definition truthy (s : option string) : bool :=
  match s with
  | Some EmptyString => false
  | Some _ => true
  | None => false
  end.

End Js.

(** The result of running a function body: a value or a thrown error. *)
Inductive completion (A : Type) : Type :=
| Return (a : A)
| Throw (e : Js.error).
Arguments Return {A} a.
Arguments Throw {A} e.

(** ** Data *)

(** [interface CompilationArtifact].  The declared type of [kind] is
    [string], but the collector stores [message.target.kind[i]], which is
    [undefined] past the end of the kind list; hence the [option]. *)
Record CompilationArtifact : Type := mkArtifact {
  a_fileName : string;
  a_name : string;
  a_kind : option string
}.

(** [CargoConfig.filter]: both fields optional. *)
Record ArtifactFilter : Type := mkFilter {
  f_name : option string;
  f_kind : option string
}.


(** ** Artifact resolution *)

Module Resolver.

(** The callback given to [artifacts.filter].  [a.kind != filter.kind]
    with [a.kind] undefined and [filter.kind] a string is [true]. *)
Definition keeps (filter : ArtifactFilter) (a : CompilationArtifact) : bool :=
  if match f_name filter with
     | Some n => negb (String.eqb (a_name a) n)
     | None => false
     end
  then false
  else if match f_kind filter with
          | Some k => match a_kind a with
                      | Some ak => negb (String.eqb ak k)
                      | None => true
                      end
          | None => false
          end
  then false
  else true.

(** The filter as the specification words it: a field that is set must
    equal the artifact's field; an unset field, or no filter at all,
    constrains nothing. *)
Definition field_matches (wanted : option string) (actual : option string)
  : Prop :=
  match wanted with
  | Some w => actual = Some w
  | None => True
  end.

Definition satisfies (filter : option ArtifactFilter) (a : CompilationArtifact)
  : Prop :=
  match filter with
  | Some f => field_matches (f_name f) (Some (a_name a))
              /\ field_matches (f_kind f) (a_kind a)
  | None => True
  end.

Global Instance field_matches_dec w a : Decision (field_matches w a).
Proof. destruct w; simpl; apply _. Defined.

Global Instance satisfies_dec flt a : Decision (satisfies flt a).
Proof. destruct flt; simpl; apply _. Defined.

End Resolver.

(** ** The output channel *)

Module OutputChannel.

(** The text written so far, one entry per call. *)
Definition t : Type := list string.

Definition append (out : t) (text : string) : t := out ++ [text].
Definition appendLine (out : t) (text : string) : t := out ++ [text +:+ Js.LF].

End OutputChannel.

(** ** Parsed JSON objects *)

(** [message.target] of a cargo message. *)
Record Target : Type := mkTarget {
  t_name : string;
  t_kind : list string;
  t_crate_types : list string
}.

(** A line-delimited cargo message, at the schema cargo emits.
    [executable] is absent ([Undefined]) in the messages of older cargo
    versions, which carry [filenames] instead. *)
Record Message : Type := mkMessage {
  reason : string;
  target : Target;
  profile_test : bool;
  executable : Js.nullable string;
  filenames : list string;
  message_rendered : string
}.

(** A target and a package of the [cargo metadata] document. *)
Record MetadataTarget : Type := mkMetadataTarget {
  mt_name : string;
  mt_kind : list string
}.

Record Package : Type := mkPackage {
  p_name : string;
  p_targets : list MetadataTarget
}.

Record Metadata : Type := mkMetadata {
  packages : list Package
}.

(** What [JSON.parse] returns for a line that starts with an open brace:
    an object, read either as a cargo message or as a metadata document. *)
Inductive json : Type :=
| JMessage (m : Message)
| JMetadata (md : Metadata).

Inductive parse_result : Type :=
| Parsed (obj : json)
| SyntaxError (rendering : string).

(** ** The child process *)

Definition Environment : Type := list (string * string).

Module Process.

(** What the child process does while the promise of [runCargo] is pending:
    stdout lines and stderr chunks in arrival order, then the event that
    settles the promise, either ['error'] or ['close'].  A cancellation
    request only sends [SIGINT] to the child, so its effect is part of what
    the run does. *)
Inductive event : Type :=
| StdoutLine (line : string)
| StderrData (chunk : string).

Inductive ending : Type :=
| SpawnError (err : Js.error)
| Close (exitCode : option Z).

Record run : Type := mkRun {
  events : list event;
  settled : ending
}.

(** The arguments of [cp.spawn]. *)
Record request : Type := mkRequest {
  r_command : string;
  r_args : option (list string);
  r_cwd : string;
  r_env : Environment
}.

End Process.

(** The platform the class runs on. *)
Class Platform : Type := mkPlatform {
  JSON_parse : string -> parse_result;
  inspect : CompilationArtifact -> string;
  formatError : Js.error -> string;
  mergedEnvironment : Environment -> Environment;
  spawn : Process.request -> Process.run
}.

(** The fields of a [Cargo] instance that the methods read: the folder path
    and the [cargo] setting of the extension configuration. *)
Record Cargo : Type := mkCargo {
  workspaceFolder_fsPath : string;
  config_cargo : option string
}.

(** ** Launch configurations *)

Record CargoSection : Type := mkCargoSection {
  cargo_args : list string;
  cargo_filter : ArtifactFilter;
  cargo_cwd : option string
}.

Record DebugConfiguration : Type := mkDebugConfiguration {
  dc_type : string;
  dc_request : string;
  dc_name : string;
  dc_program : option string;
  dc_cargo : option CargoSection;
  dc_args : list string;
  dc_cwd : string
}.

(** The constant of [getLaunchConfigs]. *)
Definition DEFAULT_LAUNCH_CONFIGS : list DebugConfiguration :=
  [ {| dc_type := "lldb";
       dc_request := "launch";
       dc_name := "Debug";
       dc_program := Some "${workspaceFolder}/<executable file>";
       dc_cargo := None;
       dc_args := [];
       dc_cwd := "${workspaceFolder}" |} ].

(** ** [runCargo] *)

(** [a || b] on strings. *)
Definition or_else (a : option string) (b : string) : string :=
  match a with
  | Some EmptyString => b
  | Some v => v
  | None => b
  end.

(** The state the listeners of [runCargo] act on: the state of the caller's
    callbacks and the lines written with [console.error]. *)
Record listeners (S : Type) : Type := mkListeners {
  user : S;
  console : list string
}.
Arguments mkListeners {S} user console.
Arguments user {S} l.
Arguments console {S} l.

Section RunCargo.
Context {P : Platform} {S : Type}.
Variable onStdoutJson : json -> S -> S.
Variable onStderrString : string -> S -> S.

(** The ['line'] listener of the readline interface on stdout. *)
Definition onLine (line : string) (st : listeners S) : listeners S :=
  if Js.startsWith line "{" then
    match JSON_parse line with
    | SyntaxError err =>
        mkListeners (user st)
          (console st ++
             ["Could not parse JSON: " +:+ err +:+ " in " +:+ Js.DQUOTE +:+ line
                +:+ Js.DQUOTE])
    | Parsed obj => mkListeners (onStdoutJson obj (user st)) (console st)
    end
  else st.

(** The ['data'] listener on stderr. *)
Definition onStderrData (chunk : string) (st : listeners S) : listeners S :=
  mkListeners (onStderrString chunk (user st)) (console st).

Definition onEvent (st : listeners S) (e : Process.event) : listeners S :=
  match e with
  | Process.StdoutLine line => onLine line st
  | Process.StderrData chunk => onStderrData chunk st
  end.

(** [runCargo(args, env, cwd, onStdoutJson, onStderrString)]: the listener
    state once the promise settles, and how it settles. *)
Definition runCargo (self : Cargo) (args : option (list string))
    (env : Environment) (cwd : option string) (st : listeners S)
  : listeners S * completion (option Z) :=
  let cargoCmd := default "cargo" (config_cargo self) in
  let cargoCwd := or_else cwd (workspaceFolder_fsPath self) in
  let cargo := spawn {| Process.r_command := cargoCmd;
                        Process.r_args := args;
                        Process.r_cwd := cargoCwd;
                        Process.r_env := mergedEnvironment env |} in
  let st := fold_left onEvent (Process.events cargo) st in
  match Process.settled cargo with
  | Process.SpawnError err => (st, Throw err)
  | Process.Close exitCode => (st, Return exitCode)
  end.

End RunCargo.

(** ** [getCargoArtifacts] *)

(** The [artifacts] array and the state of the caller's [onMessage]. *)
Record collector (M : Type) : Type := mkCollector {
  artifacts : list CompilationArtifact;
  sink : M
}.
Arguments mkCollector {M} artifacts sink.
Arguments artifacts {M} c.
Arguments sink {M} c.

Section GetCargoArtifacts.
Context {P : Platform} {M : Type}.
Variable onMessage : string -> M -> M.

(** The loop over [message.filenames] of the older schema: [remaining]
    iterations are left and [i] is the loop index. *)
Fixpoint filenamesLoop (message : Message) (remaining i : nat)
    (arts : list CompilationArtifact) : list CompilationArtifact :=
  match remaining with
  | O => arts
  | Datatypes.S remaining' =>
      match filenames message !! i with
      | Some file =>
          if Js.endsWith file ".dSYM"
          then filenamesLoop message remaining' (Datatypes.S i) arts
          else filenamesLoop message remaining' (Datatypes.S i)
                 (arts ++ [ {| a_fileName := file;
                               a_name := t_name (target message);
                               a_kind := t_kind (target message) !! i |} ])
      | None => arts
      end
  end.

(** The condition under which a compiler-artifact message is looked at. *)
Definition collects (message : Message) : bool :=
  let isBinary := Js.includes (t_crate_types (target message)) "bin" in
  let isBuildScript := Js.includes (t_kind (target message)) "custom-build" in
  (isBinary && negb isBuildScript) || profile_test message.

(** The [onStdoutJson] callback of [getCargoArtifacts]. *)
Definition onCargoJson (obj : json) (st : collector M) : collector M :=
  match obj with
  | JMetadata _ => st
  | JMessage message =>
      if String.eqb (reason message) "compiler-artifact" then
        if collects message then
          match executable message with
          | Js.Value exe =>
              mkCollector
                (artifacts st ++
                   [ {| a_fileName := exe;
                        a_name := t_name (target message);
                        a_kind := t_kind (target message) !! 0%nat |} ])
                (sink st)
          | Js.Null => st
          | Js.Undefined =>
              mkCollector
                (filenamesLoop message (length (filenames message)) 0
                   (artifacts st))
                (sink st)
          end
        else st
      else if String.eqb (reason message) "compiler-message" then
        mkCollector (artifacts st) (onMessage (message_rendered message) (sink st))
      else st
  end.

(** The [onStderrString] callback: [onMessage] itself. *)
Definition onCargoStderr (data : string) (st : collector M) : collector M :=
  mkCollector (artifacts st) (onMessage data (sink st)).

(** [getCargoArtifacts(cargoArgs, cargoEnv, cargoCwd, onMessage)]. *)
Definition getCargoArtifacts (self : Cargo) (cargoArgs : option (list string))
    (cargoEnv : Environment) (cargoCwd : option string)
    (m : M) (con : list string)
  : M * list string * completion (list CompilationArtifact) :=
  let '(st, r) :=
    runCargo onCargoJson onCargoStderr self cargoArgs cargoEnv cargoCwd
      (mkListeners (mkCollector [] m) con) in
  match r with
  | Throw err =>
      (sink (user st), console st,
       Throw (Js.ErrorWithCause "Cargo invocation failed." err))
  | Return _ => (sink (user st), console st, Return (artifacts (user st)))
  end.

End GetCargoArtifacts.

(** A sink that records the strings [onMessage] is called with. *)
Definition record_call (data : string) (calls : list string) : list string :=
  calls ++ [data].

(** ** [getProgramFromArtifacts] *)

Section GetProgramFromArtifacts.
Context {P : Platform}.

(** [for (let artifact of artifacts) output.appendLine(inspect(artifact))]. *)
Definition appendArtifacts (out : OutputChannel.t)
    (arts : list CompilationArtifact) : OutputChannel.t :=
  fold_left (fun out a => OutputChannel.appendLine out (inspect a)) arts out.

(** [getProgramFromArtifacts(artifacts, filter?)]: the output channel and the
    returned path or thrown error. *)
Definition getProgramFromArtifacts
    (arts : list CompilationArtifact) (filter : option ArtifactFilter)
    (out : OutputChannel.t) : OutputChannel.t * completion string :=
  let out := OutputChannel.appendLine out "Raw artifacts:" in
  let out := appendArtifacts out arts in
  let arts :=
    match filter with
    | Some f => List.filter (Resolver.keeps f) arts
    | None => arts
    end in
  let out := OutputChannel.appendLine out "Filtered artifacts: " in
  let out := appendArtifacts out arts in
  if (length arts =? 0)%nat then
    (out,
     Throw (Js.Error "Cargo has produced no matching compilation artifacts."))
  else if (1 <? length arts)%nat then
    (out,
     Throw (Js.Error
              "Cargo has produced more than one matching compilation artifact."))
  else
    match arts !! 0%nat with
    | Some a => (out, Return (a_fileName a))
    | None => (out, Throw (Js.TypeError "artifacts[0] is undefined"))
    end.

End GetProgramFromArtifacts.

(** ** [getLaunchConfigs] *)

(** The inner function [addConfig] of the package loop: [configs.push]. *)
Definition addConfig (pkg : Package) (directory : option string)
    (name : string) (cargo_args' : list string) (filter : ArtifactFilter)
    (configs : list DebugConfiguration) : list DebugConfiguration :=
  let cargo :=
    {| cargo_args := cargo_args' ++ ["--package=" +:+ p_name pkg];
       cargo_filter := filter;
       cargo_cwd := if Js.truthy directory then directory else None |} in
  configs ++
    [ {| dc_type := "lldb";
         dc_request := "launch";
         dc_name := name;
         dc_program := None;
         dc_cargo := Some cargo;
         dc_args := [];
         dc_cwd := "${workspaceFolder}" |} ].

(** The case labels of the [switch] on a kind string. *)
Definition isLibraryCase (kind : string) : bool :=
  String.eqb kind "lib" || String.eqb kind "rlib" || String.eqb kind "staticlib"
  || String.eqb kind "dylib" || String.eqb kind "cstaticlib".

Definition isExecutableCase (kind : string) : bool :=
  String.eqb kind "bin" || String.eqb kind "example".

Definition isTestCase (kind : string) : bool :=
  String.eqb kind "bench" || String.eqb kind "test".

(** One iteration of [for (let kind of target.kind)], on the pair of the
    flag [libAdded] and the array [configs]. *)
Definition kindStep (pkg : Package) (directory : option string)
    (target : MetadataTarget) (st : bool * list DebugConfiguration)
    (kind : string) : bool * list DebugConfiguration :=
  let '(libAdded, configs) := st in
  if isLibraryCase kind then
    if negb libAdded then
      (true,
       addConfig pkg directory
         ("Debug unit tests in library '" +:+ mt_name target +:+ "'")
         ["test"; "--no-run"; "--lib"]
         {| f_name := Some (mt_name target); f_kind := Some "lib" |}
         configs)
    else (libAdded, configs)
  else if isExecutableCase kind then
    let prettyKind := if String.eqb kind "bin" then "executable" else kind in
    let configs :=
      addConfig pkg directory
        ("Debug " +:+ prettyKind +:+ " '" +:+ mt_name target +:+ "'")
        ["build"; "--" +:+ kind +:+ "=" +:+ mt_name target]
        {| f_name := Some (mt_name target); f_kind := Some kind |}
        configs in
    let configs :=
      addConfig pkg directory
        ("Debug unit tests in " +:+ prettyKind +:+ " '" +:+ mt_name target +:+ "'")
        ["test"; "--no-run"; "--" +:+ kind +:+ "=" +:+ mt_name target]
        {| f_name := Some (mt_name target); f_kind := Some kind |}
        configs in
    (libAdded, configs)
  else if isTestCase kind then
    let prettyKind :=
      if String.eqb kind "bench" then "benchmark"
      else if String.eqb kind "test" then "integration test"
      else kind in
    (libAdded,
     addConfig pkg directory
       ("Debug " +:+ prettyKind +:+ " '" +:+ mt_name target +:+ "'")
       ["test"; "--no-run"; "--" +:+ kind +:+ "=" +:+ mt_name target]
       {| f_name := Some (mt_name target); f_kind := Some kind |}
       configs)
  else (libAdded, configs).

(** One iteration of [for (let target of pkg.targets)]. *)
Definition targetStep (pkg : Package) (directory : option string)
    (configs : list DebugConfiguration) (target : MetadataTarget)
  : list DebugConfiguration :=
  snd (fold_left (kindStep pkg directory target) (mt_kind target) (false, configs)).

(** One iteration of [for (let pkg of metadata.packages)]. *)
Definition packageStep (directory : option string)
    (configs : list DebugConfiguration) (pkg : Package)
  : list DebugConfiguration :=
  fold_left (targetStep pkg directory) (p_targets pkg) configs.

(** [exitCode != 0], where [exitCode] may be [null]. *)
Definition exitCode_nonzero (exitCode : option Z) : bool :=
  match exitCode with
  | Some c => negb (Z.eqb c 0)
  | None => true
  end.

Section GetLaunchConfigs.
Context {P : Platform}.

(** The variable [metadata] and the output channel. *)
Definition metadata_state : Type := option json * OutputChannel.t.

Definition onMetadataJson (m : json) (st : metadata_state) : metadata_state :=
  (Some m, snd st).

Definition onMetadataStderr (stderr : string) (st : metadata_state)
  : metadata_state :=
  (fst st, OutputChannel.append (snd st) stderr).

(** [getLaunchConfigs(directory?)]: the output channel, the console and the
    returned configurations or thrown error. *)
Definition getLaunchConfigs (self : Cargo) (directory : option string)
    (out : OutputChannel.t) (con : list string)
  : OutputChannel.t * list string * completion (list DebugConfiguration) :=
  let '(st, r) :=
    runCargo onMetadataJson onMetadataStderr self
      (Some ["metadata"; "--no-deps"; "--format-version=1"]) [] directory
      (mkListeners (None, out) con) in
  let '(metadata, out) := user st in
  match r with
  | Throw e =>
      if decide (Js.code e = Some "ENOENT")
      then (out, console st, Return DEFAULT_LAUNCH_CONFIGS)
      else (out, console st, Throw e)
  | Return exitCode =>
      if exitCode_nonzero exitCode
      then (out, console st, Return DEFAULT_LAUNCH_CONFIGS)
      else
        match metadata with
        | None =>
            (out, console st, Throw (Js.Error "Cargo has produced no metadata"))
        | Some (JMessage _) =>
            (out, console st,
             Throw (Js.TypeError "metadata.packages is not iterable"))
        | Some (JMetadata md) =>
            (out, console st,
             Return (fold_left (packageStep directory) (packages md) []))
        end
  end.

End GetLaunchConfigs.

(** ** The [open] handler of the pseudo-terminal *)

(** The heap of string arrays: an array value is a location, so that two
    variables may hold the same array. *)
Definition loc : Type := nat.

(** The resolved task definition handed to the [CustomExecution] callback. *)
Record TaskDefinition : Type := mkTaskDefinition {
  td_args : option loc;
  td_env : Environment;
  td_cwd : option string
}.

(** What [open] leaves behind: the heap, the strings fired on
    [outputEmitter] and the codes fired on [doneEmitter], the variable
    [artifacts] of the enclosing method, the output channel, the console,
    and the argument array handed to [getCargoArtifacts]. *)
Record opened : Type := mkOpened {
  o_heap : gmap loc (list string);
  o_written : list string;
  o_closed : list Z;
  o_artifacts : completion (list CompilationArtifact);
  o_output : OutputChannel.t;
  o_console : list string;
  o_cargoArgs : loc;
  o_ran : option (list string)
}.

Section Open.
Context {P : Platform}.

(** [message => outputEmitter.fire(message.replace(newline, '\r\n'))]. *)
Definition fireMessage (message : string) (written : list string) : list string :=
  written ++ [Js.replaceNewlines message Js.CRLF].

Definition open (self : Cargo) (taskDef : TaskDefinition)
    (heap : gmap loc (list string)) (out : OutputChannel.t) (con : list string)
  : opened :=
  (* let cargoArgs = taskDef.args || []; *)
  let '(cargoArgs, heap) :=
    match td_args taskDef with
    | Some l => (l, heap)
    | None => let l := fresh (dom heap) in (l, <[l := []]> heap)
    end in
  let pos := Js.indexOf (heap !!! cargoArgs) "--" in
  let heap :=
    <[cargoArgs :=
        Js.splice_insert (heap !!! cargoArgs)
          (if Z.leb 0 pos then pos else Z.of_nat (length (heap !!! cargoArgs)))
          ["--message-format=json"; "--color=always"]]> heap in
  let written :=
    ["Running `cargo " +:+ Js.join " " (heap !!! cargoArgs) +:+ "`..." +:+ Js.CRLF] in
  (* getCargoArtifacts(taskDef.args, ...) *)
  let ran := l ← td_args taskDef; heap !! l in
  let '(written, con, r) :=
    getCargoArtifacts fireMessage self ran (td_env taskDef) (td_cwd taskDef)
      written con in
  match r with
  | Return arts =>
      mkOpened heap written [0] (Return arts) out con cargoArgs ran
  | Throw err =>
      let msg := formatError err in
      mkOpened heap (written ++ [Js.replaceNewlines msg Js.CRLF]) [1]
        (Throw err) (OutputChannel.appendLine out msg) con cargoArgs ran
  end.

End Open.

(** ** Specification-level definitions *)

Module Spec.

(** The collection condition in the words of the specification: the
    target's _kind_ list contains the "bin" kind string and not the
    "custom-build" kind string, or the profile marks a test build. *)
Definition collects (message : Message) : bool :=
  let isBinaryKind := Js.includes (t_kind (target message)) "bin" in
  let isBuildScript := Js.includes (t_kind (target message)) "custom-build" in
  (isBinaryKind && negb isBuildScript) || profile_test message.

(** A path ends in the suffix [suffix]. *)
Definition ends_in (path suffix : string) : Prop :=
  exists stem, path = stem +:+ suffix.

(** The artifact of the [filenames] entry at index [i]: none for a path
    that ends in [.dSYM], otherwise the file paired with the kind at the
    same index. *)
Definition entry (message : Message) (i : nat) (file : string)
  : option CompilationArtifact :=
  if Js.endsWith file ".dSYM" then None
  else Some {| a_fileName := file;
               a_name := t_name (target message);
               a_kind := t_kind (target message) !! i |}.

(** The artifacts of an old-schema message in the words of the
    specification: one per [filenames] entry, entries ending in [.dSYM]
    left out. *)
Definition oldSchemaArtifacts (message : Message) : list CompilationArtifact :=
  omap id (imap (entry message) (filenames message)).

(** A descriptor named as a "debug unit tests in library" descriptor. *)
Definition isLibraryDescriptor (c : DebugConfiguration) : bool :=
  String.prefix "Debug unit tests in library '" (dc_name c).


(** The artifacts that the output fields of a message carry: the
    [executable] of the new schema when it is not null, the [filenames] of
    the old schema otherwise. *)
Definition carried (message : Message) : list CompilationArtifact :=
  match executable message with
  | Js.Value exe =>
      [ {| a_fileName := exe;
           a_name := t_name (target message);
           a_kind := head (t_kind (target message)) |} ]
  | Js.Null => []
  | Js.Undefined => oldSchemaArtifacts message
  end.

(** The "debug unit tests in library" descriptor of a target. *)
Definition libraryDescriptor (pkg : Package) (directory : option string)
    (target : MetadataTarget) : DebugConfiguration :=
  {| dc_type := "lldb";
     dc_request := "launch";
     dc_name := "Debug unit tests in library '" +:+ mt_name target +:+ "'";
     dc_program := None;
     dc_cargo :=
       Some {| cargo_args :=
                 ["test"; "--no-run"; "--lib"; "--package=" +:+ p_name pkg];
               cargo_filter := {| f_name := Some (mt_name target);
                                  f_kind := Some "lib" |};
               cargo_cwd := if Js.truthy directory then directory else None |};
     dc_args := [];
     dc_cwd := "${workspaceFolder}" |}.

End Spec.

(** ** A sample platform *)

Module Sample.

Definition q (s : string) : string := Js.DQUOTE +:+ s +:+ Js.DQUOTE.

Definition artifact_message : Message :=
  {| reason := "compiler-artifact";
     target := {| t_name := "demo"; t_kind := ["bin"]; t_crate_types := ["bin"] |};
     profile_test := false;
     executable := Js.Value "/p/target/debug/demo";
     filenames := ["/p/target/debug/demo"];
     message_rendered := "" |}.

Definition artifact_line : string :=
  "{" +:+ q "reason" +:+ ":" +:+ q "compiler-artifact" +:+ ","
  +:+ q "target" +:+ ":{" +:+ q "name" +:+ ":" +:+ q "demo" +:+ ","
  +:+ q "kind" +:+ ":[" +:+ q "bin" +:+ "]," +:+ q "crate_types" +:+ ":["
  +:+ q "bin" +:+ "]}," +:+ q "profile" +:+ ":{" +:+ q "test" +:+ ":false},"
  +:+ q "executable" +:+ ":" +:+ q "/p/target/debug/demo" +:+ ","
  +:+ q "filenames" +:+ ":[" +:+ q "/p/target/debug/demo" +:+ "]}".

Definition metadata_document : Metadata :=
  {| packages :=
       [ {| p_name := "demo";
            p_targets := [ {| mt_name := "demo"; mt_kind := ["lib"; "staticlib"] |};
                           {| mt_name := "demo"; mt_kind := ["bin"] |} ] |} ] |}.

Definition metadata_line : string :=
  "{" +:+ q "packages" +:+ ":[{" +:+ q "name" +:+ ":" +:+ q "demo" +:+ ","
  +:+ q "targets" +:+ ":[{" +:+ q "name" +:+ ":" +:+ q "demo" +:+ ","
  +:+ q "kind" +:+ ":[" +:+ q "lib" +:+ "," +:+ q "staticlib" +:+ "]},{"
  +:+ q "name" +:+ ":" +:+ q "demo" +:+ "," +:+ q "kind" +:+ ":[" +:+ q "bin"
  +:+ "]}]}]}".

(** A line that starts with an open brace and is not JSON. *)
Definition malformed_line : string := "{ warning: truncated".

Definition syntax_error : string :=
  "SyntaxError: Expected property name or '}' in JSON at position 2".

(** [JSON.parse] on the lines of the sample session. *)
Definition parse (line : string) : parse_result :=
  if String.eqb line artifact_line then Parsed (JMessage artifact_message)
  else if String.eqb line metadata_line then Parsed (JMetadata metadata_document)
  else SyntaxError syntax_error.

(** A platform whose child process behaves as [run], whatever it is asked
    to run. *)
Definition platform (run : Process.run) : Platform :=
  {| JSON_parse := parse;
     inspect := a_fileName;
     formatError := Js.message;
     mergedEnvironment := fun env => env;
     spawn := fun _ => run |}.

Definition cargo : Cargo :=
  {| workspaceFolder_fsPath := "/p"; config_cargo := None |}.

(** An example target: its kind is [example], its crate type [bin]. *)
Definition example_message : Message :=
  {| reason := "compiler-artifact";
     target := {| t_name := "hello"; t_kind := ["example"];
                  t_crate_types := ["bin"] |};
     profile_test := false;
     executable := Js.Value "/p/target/debug/examples/hello";
     filenames := ["/p/target/debug/examples/hello"];
     message_rendered := "" |}.

(** A message of an older cargo: no [executable], and a debug symbol
    bundle among the files. *)
Definition old_message : Message :=
  {| reason := "compiler-artifact";
     target := {| t_name := "demo"; t_kind := ["bin"]; t_crate_types := ["bin"] |};
     profile_test := false;
     executable := Js.Undefined;
     filenames := ["/p/target/debug/demo.dSYM"; "/p/target/debug/demo"];
     message_rendered := "" |}.

(** A library build: neither a binary crate nor a test profile. *)
Definition library_message : Message :=
  {| reason := "compiler-artifact";
     target := {| t_name := "demo"; t_kind := ["lib"]; t_crate_types := ["lib"] |};
     profile_test := false;
     executable := Js.Null;
     filenames := ["/p/target/debug/libdemo.rlib"];
     message_rendered := "" |}.

(** A rendered diagnostic. *)
Definition diagnostic_message : Message :=
  {| reason := "compiler-message";
     target := {| t_name := "demo"; t_kind := ["bin"]; t_crate_types := ["bin"] |};
     profile_test := false;
     executable := Js.Undefined;
     filenames := [];
     message_rendered := "warning: unused variable" |}.

(** A build whose stdout carries a progress line that is not JSON. *)
Definition plain_line : string := "   Compiling demo v0.1.0 (/p)".

Definition plain_run : Process.run :=
  {| Process.events := [Process.StdoutLine plain_line];
     Process.settled := Process.Close (Some 0) |}.

(** A build whose stdout carries a malformed line before the artifact. *)
Definition interleaved_run : Process.run :=
  {| Process.events := [Process.StdoutLine malformed_line;
                        Process.StdoutLine artifact_line];
     Process.settled := Process.Close (Some 0) |}.

(** Runs of [cargo metadata]: the executable is missing; there is no
    manifest; the tool exits with 0 and prints nothing; the tool prints the
    metadata document. *)
Definition enoent_run : Process.run :=
  {| Process.events := [];
     Process.settled :=
       Process.SpawnError (Js.MkError "spawn cargo ENOENT" (Some "ENOENT")) |}.

Definition no_manifest_run : Process.run :=
  {| Process.events :=
       [Process.StderrData "error: could not find `Cargo.toml` in `/p`"];
     Process.settled := Process.Close (Some 101) |}.

Definition silent_run : Process.run :=
  {| Process.events := []; Process.settled := Process.Close (Some 0) |}.

Definition metadata_run : Process.run :=
  {| Process.events := [Process.StdoutLine metadata_line];
     Process.settled := Process.Close (Some 0) |}.

Definition demo_package : Package :=
  {| p_name := "demo"; p_targets := [] |}.

Definition rlib_target : MetadataTarget :=
  {| mt_name := "demo"; mt_kind := ["rlib"] |}.

Definition lib_target : MetadataTarget :=
  {| mt_name := "demo"; mt_kind := ["lib"; "staticlib"] |}.

Definition bin_target : MetadataTarget :=
  {| mt_name := "demo"; mt_kind := ["bin"] |}.

(** A task definition whose argument array lives at location 0. *)
Definition task : TaskDefinition :=
  {| td_args := Some 0%nat; td_env := []; td_cwd := None |}.

Definition heap : gmap loc (list string) := {[ 0%nat := ["build"; "--"; "-v"] ]}.

(** Two candidates: the binary and its test harness. *)
Definition candidates : list CompilationArtifact :=
  [ {| a_fileName := "/p/target/debug/demo";
       a_name := "demo"; a_kind := Some "bin" |};
    {| a_fileName := "/p/target/debug/deps/demo_tests-1f2e";
       a_name := "demo_tests"; a_kind := Some "test" |} ].

End Sample.

(** The platform [P] with its child process replaced by one that behaves
    as [run]. *)
Definition with_run (P : Platform) (run : Process.run) : Platform :=
  {| JSON_parse := JSON_parse;
     inspect := inspect;
     formatError := formatError;
     mergedEnvironment := mergedEnvironment;
     spawn := fun _ => run |}.

(** ** [getProgramFromCargoConfig] *)

(** [interface CargoConfig].  The argument array is a location of the heap
    of arrays. *)
Record CargoConfig : Type := mkCargoConfig {
  cc_type : string;
  cc_command : string;
  cc_args : option loc;
  cc_env : option Environment;
  cc_problemMatcher : option (list string);
  cc_filter : option ArtifactFilter
}.

(** What the method leaves behind and what it returns or throws. *)
Record resolution : Type := mkResolution {
  g_config : CargoConfig;
  g_task : opened;
  g_output : OutputChannel.t;
  g_result : completion string
}.

Section GetProgramFromCargoConfig.
Context {P : Platform}.

(** [getProgramFromCargoConfig(cargoConfig)].  The host executes the task
    once: it hands the resolved task definition [taskDef] to the
    [CustomExecution] callback, opens the pseudo-terminal it returns, and
    ends the task when [doneEmitter] fires; the method then reads the
    variable [artifacts] that [open] has assigned. *)
Definition getProgramFromCargoConfig (self : Cargo) (cargoConfig : CargoConfig)
    (taskDef : TaskDefinition) (heap : gmap loc (list string))
    (out : OutputChannel.t) (con : list string) : resolution :=
  (* cargoConfig.command = 'dummy'; *)
  let config :=
    {| cc_type := cc_type cargoConfig;
       cc_command := "dummy";
       cc_args := cc_args cargoConfig;
       cc_env := cc_env cargoConfig;
       cc_problemMatcher := cc_problemMatcher cargoConfig;
       cc_filter := cc_filter cargoConfig |} in
  let task := open self taskDef heap out con in
  match o_artifacts task with
  | Throw err =>
      mkResolution config task (o_output task)
        (Throw (Js.ErrorWithCause "Cargo task failed." err))
  | Return arts =>
      let '(out, r) :=
        getProgramFromArtifacts arts (cc_filter config) (o_output task) in
      mkResolution config task out r
  end.

End GetProgramFromCargoConfig.

(** ** The stream of a run, event by event *)

Module Trace.
Section WithPlatform.
Context {P : Platform}.

(** The object of a stdout line that starts with an open brace and parses. *)
Definition parsed (line : string) : option json :=
  if Js.startsWith line "{" then
    match JSON_parse line with
    | Parsed obj => Some obj
    | SyntaxError _ => None
    end
  else None.

(** What an event hands to the callbacks of [runCargo]: an object for
    [onStdoutJson] or a chunk for [onStderrString]. *)
Definition delivery (e : Process.event) : option (json + string) :=
  match e with
  | Process.StdoutLine line => inl <$> parsed line
  | Process.StderrData chunk => Some (inr chunk)
  end.

(** The console line of an event: one for a stdout line that starts with an
    open brace and does not parse. *)
Definition failure (e : Process.event) : option string :=
  match e with
  | Process.StdoutLine line =>
      if Js.startsWith line "{" then
        match JSON_parse line with
        | Parsed _ => None
        | SyntaxError err =>
            Some ("Could not parse JSON: " +:+ err +:+ " in " +:+ Js.DQUOTE
                    +:+ line +:+ Js.DQUOTE)
        end
      else None
  | Process.StderrData _ => None
  end.

(** The artifacts an event contributes. *)
Definition contribution (e : Process.event) : list CompilationArtifact :=
  match e with
  | Process.StdoutLine line =>
      match parsed line with
      | Some (JMessage message) =>
          if String.eqb (reason message) "compiler-artifact" && collects message
          then Spec.carried message else []
      | _ => []
      end
  | Process.StderrData _ => []
  end.

(** The text an event sends to [onMessage]: a stderr chunk, or the rendered
    text of a compiler-message. *)
Definition diagnostic (e : Process.event) : option string :=
  match e with
  | Process.StdoutLine line =>
      match parsed line with
      | Some (JMessage message) =>
          if String.eqb (reason message) "compiler-message"
          then Some (message_rendered message) else None
      | _ => None
      end
  | Process.StderrData chunk => Some chunk
  end.

(** The chunk of a stderr event. *)
Definition stderr_chunk (e : Process.event) : option string :=
  match e with
  | Process.StdoutLine _ => None
  | Process.StderrData chunk => Some chunk
  end.

End WithPlatform.

(** Every line feed of [s] follows a carriage return; [after_cr] tells
    whether the character before [s] is one. *)
Fixpoint crlf_only (after_cr : bool) (s : string) : bool :=
  match s with
  | EmptyString => true
  | String c rest =>
      if Ascii.eqb c (ascii_of_nat 10) then after_cr && crlf_only false rest
      else crlf_only (Ascii.eqb c (ascii_of_nat 13)) rest
  end.

End Trace.

(** Giving a callback of [runCargo] what an event delivers. *)
Definition deliver {S : Type} (onStdoutJson : json -> S -> S)
    (onStderrString : string -> S -> S) (st : S) (d : json + string) : S :=
  match d with
  | inl obj => onStdoutJson obj st
  | inr chunk => onStderrString chunk st
  end.

(** ** What a synthesized descriptor looks like *)

Module Descriptor.

(** A descriptor of [target] in [pkg]: a cargo launch whose build arguments
    end with the selection of the package, whose filter names the target
    and a kind that is "lib" or one of the target's kinds, and whose [cwd]
    is the directory given, if any. *)
Definition scoped (pkg : Package) (directory : option string)
    (target : MetadataTarget) (c : DebugConfiguration) : Prop :=
  dc_type c = "lldb" /\ dc_request c = "launch" /\ dc_program c = None
  /\ dc_args c = [] /\ dc_cwd c = "${workspaceFolder}"
  /\ exists cargo,
       dc_cargo c = Some cargo
       /\ last (cargo_args cargo) = Some ("--package=" +:+ p_name pkg)
       /\ cargo_cwd cargo = (if Js.truthy directory then directory else None)
       /\ f_name (cargo_filter cargo) = Some (mt_name target)
       /\ exists kind,
            f_kind (cargo_filter cargo) = Some kind
            /\ (kind = "lib" \/ kind ∈ mt_kind target).

(** The number of descriptors of a kind list: one for all its library
    kinds together, two per executable kind, one per test kind. *)
Definition expected_count (kinds : list string) : nat :=
  (if existsb isLibraryCase kinds then 1 else 0)
  + 2 * length (List.filter isExecutableCase kinds)
  + length (List.filter isTestCase kinds).

End Descriptor.

(** ** A second sample session *)

Module Session.

(** The diagnostic of the sample build, as a JSON line. *)
Definition diagnostic_line : string :=
  "{" +:+ Sample.q "reason" +:+ ":" +:+ Sample.q "compiler-message" +:+ ","
  +:+ Sample.q "message" +:+ ":{" +:+ Sample.q "rendered" +:+ ":"
  +:+ Sample.q "warning: unused variable" +:+ "}}".

(** A build that reports on both streams and exits with 101. *)
Definition failing_build : Process.run :=
  {| Process.events :=
       [Process.StderrData "   Compiling demo v0.1.0 (/p)";
        Process.StdoutLine diagnostic_line;
        Process.StdoutLine Sample.artifact_line;
        Process.StderrData "error: could not compile `demo`"];
     Process.settled := Process.Close (Some 101) |}.

(** The same build when the executable is missing. *)
Definition missing_cargo : Process.run :=
  {| Process.events := [];
     Process.settled :=
       Process.SpawnError (Js.MkError "spawn cargo ENOENT" (Some "ENOENT")) |}.

(** A spawn failure that is not a missing executable. *)
Definition denied_cargo : Process.run :=
  {| Process.events := [];
     Process.settled :=
       Process.SpawnError (Js.MkError "spawn cargo EACCES" (Some "EACCES")) |}.

(** Two metadata documents on stdout: the later one counts. *)
Definition other_document : Metadata :=
  {| packages :=
       [ {| p_name := "tools";
            p_targets := [ {| mt_name := "bench1"; mt_kind := ["bench"] |};
                           {| mt_name := "it"; mt_kind := ["test"] |};
                           {| mt_name := "gen"; mt_kind := ["proc-macro"] |} ] |} ] |}.

Definition other_line : string :=
  "{" +:+ Sample.q "packages" +:+ ":[{" +:+ Sample.q "name" +:+ ":"
  +:+ Sample.q "tools" +:+ "," +:+ Sample.q "targets" +:+ ":[{"
  +:+ Sample.q "name" +:+ ":" +:+ Sample.q "bench1" +:+ "," +:+ Sample.q "kind"
  +:+ ":[" +:+ Sample.q "bench" +:+ "]},{" +:+ Sample.q "name" +:+ ":"
  +:+ Sample.q "it" +:+ "," +:+ Sample.q "kind" +:+ ":[" +:+ Sample.q "test"
  +:+ "]},{" +:+ Sample.q "name" +:+ ":" +:+ Sample.q "gen" +:+ ","
  +:+ Sample.q "kind" +:+ ":[" +:+ Sample.q "proc-macro" +:+ "]}]}]}".

Definition parse (line : string) : parse_result :=
  if String.eqb line diagnostic_line
  then Parsed (JMessage Sample.diagnostic_message)
  else if String.eqb line other_line then Parsed (JMetadata other_document)
  else Sample.parse line.

Definition platform (run : Process.run) : Platform :=
  {| JSON_parse := parse;
     inspect := a_fileName;
     formatError := Js.message;
     mergedEnvironment := fun env => env;
     spawn := fun _ => run |}.

Definition two_documents : Process.run :=
  {| Process.events := [Process.StdoutLine Sample.metadata_line;
                        Process.StderrData "warning: unused manifest key";
                        Process.StdoutLine other_line;
                        Process.StdoutLine Sample.plain_line];
     Process.settled := Process.Close (Some 0) |}.

Definition config : CargoConfig :=
  {| cc_type := "cargo";
     cc_command := "";
     cc_args := Some 0%nat;
     cc_env := None;
     cc_problemMatcher := None;
     cc_filter := Some {| f_name := Some "demo"; f_kind := Some "bin" |} |}.

End Session.

(** ** A process that reports how it was started *)

Module Echo.

(** The child prints the arguments it was given on stderr and exits
    with 0. *)
Definition run_of (request : Process.request) : Process.run :=
  {| Process.events :=
       [Process.StderrData
          (Js.join " " (default [] (Process.r_args request)))];
     Process.settled := Process.Close (Some 0) |}.

Definition platform : Platform :=
  {| JSON_parse := Sample.parse;
     inspect := a_fileName;
     formatError := Js.message;
     mergedEnvironment := fun env => env;
     spawn := run_of |}.

(** The caller's argument array at location 1 and the array of the
    resolved task definition, a copy of it, at location 0. *)
Definition heap : gmap loc (list string) :=
  <[ 1%nat := ["build"; "--"; "-v"] ]> {[ 0%nat := ["build"; "--"; "-v"] ]}.

Definition config : CargoConfig :=
  {| cc_type := "cargo";
     cc_command := "";
     cc_args := Some 1%nat;
     cc_env := None;
     cc_problemMatcher := None;
     cc_filter := None |}.

End Echo.

(** * Properties *)

(** ** The sample session *)

Section SampleSession.

Example endsWith_bundle :
  Js.endsWith "/p/target/debug/demo.dSYM" ".dSYM" = true
  /\ Js.endsWith "/p/target/debug/demo" ".dSYM" = false
  /\ Js.endsWith "SYM" ".dSYM" = false.
Proof. repeat split. Qed.

Example resolve_by_name :
  (getProgramFromArtifacts (P := Sample.platform Sample.silent_run)
     Sample.candidates (Some {| f_name := Some "demo"; f_kind := None |}) []).2 =
    Return "/p/target/debug/demo".
Proof. reflexivity. Qed.

Example resolve_without_filter :
  (getProgramFromArtifacts (P := Sample.platform Sample.silent_run)
     Sample.candidates None []).2 =
    Throw (Js.Error
             "Cargo has produced more than one matching compilation artifact.").
Proof. reflexivity. Qed.

Example collect_interleaved :
  getCargoArtifacts (P := Sample.platform Sample.interleaved_run) record_call
    Sample.cargo (Some ["build"]) [] None [] [] =
    ([],
     ["Could not parse JSON: " +:+ Sample.syntax_error +:+ " in " +:+ Js.DQUOTE
        +:+ Sample.malformed_line +:+ Js.DQUOTE],
     Return [ {| a_fileName := "/p/target/debug/demo";
                 a_name := "demo"; a_kind := Some "bin" |} ]).
Proof. vm_compute. reflexivity. Qed.

Example launch_configs_of_demo :
  match (getLaunchConfigs (P := Sample.platform Sample.metadata_run)
           Sample.cargo None [] []).2 with
  | Return configs => dc_name <$> configs
  | Throw _ => []
  end =
    ["Debug unit tests in library 'demo'";
     "Debug executable 'demo'";
     "Debug unit tests in executable 'demo'"].
Proof. vm_compute. reflexivity. Qed.

Example open_announces_command :
  head (o_written (open (P := Sample.platform Sample.silent_run) Sample.cargo
                     Sample.task Sample.heap [] [])) =
    Some ("Running `cargo build --message-format=json --color=always -- -v`..."
            +:+ Js.CRLF).
Proof. vm_compute. reflexivity. Qed.

(** Without an argument array in the task definition the flags go into a
    fresh array that only the announcement reads. *)
Example open_without_args :
  let r := open (P := Sample.platform Sample.silent_run) Sample.cargo
             {| td_args := None; td_env := []; td_cwd := None |} ∅ [] [] in
  o_ran r = None
  /\ head (o_written r) =
       Some ("Running `cargo --message-format=json --color=always`..."
               +:+ Js.CRLF).
Proof. vm_compute. split; reflexivity. Qed.

End SampleSession.

(** ** Strings *)

Section StringFacts.

Lemma string_app_length (s t : string) :
  String.length (s +:+ t) = (String.length s + String.length t)%nat.
Proof. induction s as [|c s IH]; simpl; [reflexivity | now rewrite IH]. Qed.

Lemma substring_whole (s : string) : substring 0 (String.length s) s = s.
Proof. induction s as [|c s IH]; simpl; [reflexivity | now rewrite IH]. Qed.

Lemma substring_skip (stem t : string) (m : nat) :
  substring (String.length stem) m (stem +:+ t) = substring 0 m t.
Proof. induction stem as [|c stem IH]; simpl; [reflexivity | exact IH]. Qed.

Lemma substring_split (s : string) (n : nat) :
  (n <= String.length s)%nat ->
  s = substring 0 n s +:+ substring n (String.length s - n) s.
Proof.
  revert n. induction s as [|c s IH]; intros n Hn.
  - destruct n; reflexivity.
  - destruct n as [|n]; simpl.
    + now rewrite substring_whole.
    + simpl in Hn. change (String c s = String c (substring 0 n s +:+
        substring n (String.length s - n) s)).
      f_equal. apply IH. lia.
Qed.

(** [endsWith] decides "ends in". *)
Lemma endsWith_spec (s t : string) :
  Js.endsWith s t = true <-> Spec.ends_in s t.
Proof.
  unfold Js.endsWith, Spec.ends_in. split.
  - destruct (Nat.ltb_spec (String.length s) (String.length t)) as [Hlt|Hle];
      [discriminate|].
    intros Heq. apply String.eqb_eq in Heq.
    exists (substring 0 (String.length s - String.length t) s).
    pose proof (substring_split s (String.length s - String.length t)) as Hs.
    replace (String.length s - (String.length s - String.length t))%nat
      with (String.length t) in Hs by lia.
    rewrite Heq in Hs. apply Hs. lia.
  - intros [stem ->]. rewrite string_app_length.
    destruct (Nat.ltb_spec (String.length stem + String.length t)
                (String.length t)) as [Hlt|Hle]; [lia|].
    replace (String.length stem + String.length t - String.length t)%nat
      with (String.length stem) by lia.
    rewrite substring_skip, substring_whole. apply String.eqb_refl.
Qed.

Lemma endsWith_false (s t : string) :
  Js.endsWith s t = false <-> ~ Spec.ends_in s t.
Proof.
  rewrite <- endsWith_spec. destruct (Js.endsWith s t); split; intros H.
  - discriminate.
  - exfalso. now apply H.
  - discriminate.
  - reflexivity.
Qed.

End StringFacts.

(** ** Artifact resolution *)

Section ResolverFacts.

Lemma keeps_spec (f : ArtifactFilter) (a : CompilationArtifact) :
  Resolver.keeps f a = true <-> Resolver.satisfies (Some f) a.
Proof.
  unfold Resolver.keeps, Resolver.satisfies, Resolver.field_matches.
  destruct f as [[n|] [k|]], a as [file name [ak|]]; simpl;
    repeat match goal with
      | |- context [String.eqb ?x ?y] => destruct (String.eqb_spec x y)
      end; simpl; intuition congruence.
Qed.

Lemma filter_keeps (f : ArtifactFilter) (arts : list CompilationArtifact) :
  List.filter (Resolver.keeps f) arts = filter (Resolver.satisfies (Some f)) arts.
Proof.
  induction arts as [|a arts IH]; [reflexivity|].
  cbn [List.filter]. rewrite filter_cons.
  destruct (Resolver.keeps f a) eqn:Hk.
  - apply keeps_spec in Hk. rewrite decide_True by exact Hk. now rewrite IH.
  - rewrite decide_False; [exact IH|].
    intros Hs. apply keeps_spec in Hs. congruence.
Qed.

Lemma filter_no_filter (arts : list CompilationArtifact) :
  filter (Resolver.satisfies None) arts = arts.
Proof.
  induction arts as [|a arts IH]; [reflexivity|].
  rewrite filter_cons_True by exact I. now rewrite IH.
Qed.

End ResolverFacts.

(** C1.  Resolving a program keeps exactly the artifacts that satisfy the
    filter (every set field equal to the artifact's field, no filter keeping
    everything); it returns the file path of the only survivor, throws the
    no-match error when none survives and the ambiguity error when two or
    more do. *)
Theorem getProgramFromArtifacts_unique `{P : Platform}
    (arts : list CompilationArtifact) (flt : option ArtifactFilter)
    (out : OutputChannel.t) :
  snd (getProgramFromArtifacts arts flt out) =
    match filter (Resolver.satisfies flt) arts with
    | [] =>
        Throw (Js.Error "Cargo has produced no matching compilation artifacts.")
    | [a] => Return (a_fileName a)
    | _ :: _ :: _ =>
        Throw (Js.Error
                 "Cargo has produced more than one matching compilation artifact.")
    end.
Proof.
  unfold getProgramFromArtifacts.
  assert (Hsel : match flt with
                 | Some f => List.filter (Resolver.keeps f) arts
                 | None => arts
                 end = filter (Resolver.satisfies flt) arts).
  { destruct flt as [f|]; [apply filter_keeps | now rewrite filter_no_filter]. }
  rewrite Hsel.
  destruct (filter (Resolver.satisfies flt) arts) as [|a [|b rest]]; reflexivity.
Qed.

(** ** Artifact collection *)

Section CollectorFacts.
Context {M : Type}.
Variable onMessage : string -> M -> M.

Local Abbreviation entry := Spec.entry.

Lemma filenamesLoop_from (message : Message) (remaining i : nat)
    (arts : list CompilationArtifact) :
  (remaining + i = length (filenames message))%nat ->
  filenamesLoop message remaining i arts =
    arts ++ omap id (imap (fun j => entry message (i + j))
                       (drop i (filenames message))).
Proof.
  revert i arts. induction remaining as [|r IH]; intros i arts Hlen.
  - simpl. rewrite drop_ge by lia. simpl. now rewrite app_nil_r.
  - destruct (lookup_lt_is_Some_2 (filenames message) i) as [file Hfile]; [lia|].
    cbn [filenamesLoop]. rewrite Hfile.
    rewrite (drop_S _ _ _ Hfile), imap_cons.
    replace (i + 0)%nat with i by lia.
    assert (Hrest : imap ((fun j => entry message (i + j)) ∘ Datatypes.S)
                      (drop (Datatypes.S i) (filenames message)) =
                    imap (fun j => entry message (Datatypes.S i + j))
                      (drop (Datatypes.S i) (filenames message))).
    { apply imap_ext. intros j x _. simpl. f_equal. lia. }
    rewrite Hrest. unfold Spec.entry at 1.
    destruct (Js.endsWith file ".dSYM"); simpl.
    + apply IH. lia.
    + rewrite IH by lia. now rewrite <- app_assoc.
Qed.

Lemma filenamesLoop_spec (message : Message) (arts : list CompilationArtifact) :
  filenamesLoop message (length (filenames message)) 0 arts =
    arts ++ Spec.oldSchemaArtifacts message.
Proof.
  rewrite filenamesLoop_from by lia. reflexivity.
Qed.

Lemma elem_of_oldSchemaArtifacts (message : Message) (a : CompilationArtifact) :
  a ∈ Spec.oldSchemaArtifacts message <->
  exists (i : nat) (file : string),
    filenames message !! i = Some file /\
    ~ Spec.ends_in file ".dSYM" /\
    a = {| a_fileName := file;
           a_name := t_name (target message);
           a_kind := t_kind (target message) !! i |}.
Proof.
  unfold Spec.oldSchemaArtifacts. rewrite list_elem_of_omap. split.
  - intros [o [Ho Hid]]. simpl in Hid. subst o.
    apply list_elem_of_lookup in Ho as [i Hi].
    rewrite list_lookup_imap in Hi.
    destruct (filenames message !! i) as [file|] eqn:Hfile; [|discriminate].
    simpl in Hi. unfold Spec.entry in Hi. exists i, file.
    destruct (Js.endsWith file ".dSYM") eqn:He; [discriminate|].
    apply endsWith_false in He. split; [exact Hfile|]. split; [exact He|].
    congruence.
  - intros (i & file & Hfile & Hend & ->).
    eexists. split; [|reflexivity].
    apply list_elem_of_lookup. exists i.
    rewrite list_lookup_imap, Hfile. simpl. unfold Spec.entry.
    apply endsWith_false in Hend. now rewrite Hend.
Qed.

(** What a message does to the [artifacts] array. *)
Lemma onCargoJson_artifacts (message : Message) (st : collector M) :
  artifacts (onCargoJson onMessage (JMessage message) st) =
    artifacts st ++
      (if String.eqb (reason message) "compiler-artifact" && collects message
       then Spec.carried message else []).
Proof.
  unfold onCargoJson, Spec.carried.
  destruct (String.eqb (reason message) "compiler-artifact"); simpl.
  - destruct (collects message); simpl; [|now rewrite app_nil_r].
    destruct (executable message); simpl.
    + apply filenamesLoop_spec.
    + now rewrite app_nil_r.
    + now rewrite head_lookup.
  - destruct (String.eqb (reason message) "compiler-message"); simpl;
      now rewrite app_nil_r.
Qed.

Lemma oldSchemaArtifacts_files_from (message : Message) (k : nat)
    (files : list string) :
  a_fileName <$> omap id (imap (fun j => entry message (k + j)) files) =
    List.filter (fun file => negb (Js.endsWith file ".dSYM")) files.
Proof.
  revert k. induction files as [|file files IH]; intros k; [reflexivity|].
  rewrite imap_cons. cbn [List.filter omap list_omap].
  assert (Hrest : imap ((fun j => entry message (k + j)) ∘ Datatypes.S) files =
                  imap (fun j => entry message (Datatypes.S k + j)) files).
  { apply imap_ext. intros j x _. simpl. f_equal. lia. }
  rewrite Hrest. unfold Spec.entry at 1.
  destruct (Js.endsWith file ".dSYM"); simpl;
    [exact (IH (Datatypes.S k))|].
  f_equal. exact (IH (Datatypes.S k)).
Qed.

Lemma includes_spec (xs : list string) (x : string) :
  Js.includes xs x = true <-> x ∈ xs.
Proof.
  unfold Js.includes. rewrite existsb_exists. split.
  - intros [y [Hin Heq]]. apply String.eqb_eq in Heq. subst y.
    now apply list_elem_of_In.
  - intros Hin. exists x. split; [now apply list_elem_of_In|].
    apply String.eqb_refl.
Qed.

Lemma collects_spec (message : Message) :
  collects message = true <->
  ("bin" ∈ t_crate_types (target message)
   /\ "custom-build" ∉ t_kind (target message))
  \/ profile_test message = true.
Proof.
  unfold collects. rewrite orb_true_iff, andb_true_iff, negb_true_iff.
  rewrite includes_spec, <- not_true_iff_false, includes_spec. reflexivity.
Qed.

End CollectorFacts.

(** C2 (as amended).  A compiler-artifact message contributes artifacts
    only if the target's [crate_types] list contains "bin" and its kind list
    does not contain "custom-build", or the profile marks a test build; it
    then contributes the artifacts its output fields carry.  A
    compiler-artifact message that fails the condition, and a message with
    any other reason, contribute nothing. *)
Theorem artifact_collected_by_crate_type {M : Type}
    (onMessage : string -> M -> M) (message : Message) (st : collector M) :
  let condition :=
    ("bin" ∈ t_crate_types (target message)
     /\ "custom-build" ∉ t_kind (target message))
    \/ profile_test message = true in
  let after := artifacts (onCargoJson onMessage (JMessage message) st) in
  (reason message = "compiler-artifact" -> condition ->
   after = artifacts st ++ Spec.carried message)
  /\ (reason message = "compiler-artifact" -> ~ condition ->
      after = artifacts st)
  /\ (reason message <> "compiler-artifact" -> after = artifacts st).
Proof.
  cbn zeta. rewrite onCargoJson_artifacts, <- collects_spec.
  repeat split.
  - intros -> ->. reflexivity.
  - intros -> Hc. apply not_true_is_false in Hc. rewrite Hc.
    simpl. now rewrite app_nil_r.
  - intros Hr. apply String.eqb_neq in Hr. rewrite Hr.
    simpl. now rewrite app_nil_r.
Qed.

Lemma artifact_collected_by_crate_type_witness :
  artifacts (onCargoJson record_call (JMessage Sample.example_message)
               (mkCollector [] [])) =
    [] ++ Spec.carried Sample.example_message
  /\ artifacts (onCargoJson record_call (JMessage Sample.library_message)
                  (mkCollector [] [])) = []
  /\ artifacts (onCargoJson record_call (JMessage Sample.diagnostic_message)
                  (mkCollector [] [])) = [].
Proof.
  split; [|split].
  - apply (proj1 (artifact_collected_by_crate_type record_call
                    Sample.example_message (mkCollector [] []))).
    + reflexivity.
    + left. split; compute_done.
  - apply (proj1 (proj2 (artifact_collected_by_crate_type record_call
                           Sample.library_message (mkCollector [] [])))).
    + reflexivity.
    + intros [[Hbin _]|Htest]; [|discriminate].
      revert Hbin. compute_done.
  - apply (proj2 (proj2 (artifact_collected_by_crate_type record_call
                           Sample.diagnostic_message (mkCollector [] [])))).
    discriminate.
Defined.

(** C2 as stated fails: an example target has kind [example], so the
    condition on the kind list is false, yet its executable is collected. *)
Lemma artifact_collected_by_kind_counterexample :
  reason Sample.example_message = "compiler-artifact"
  /\ Spec.collects Sample.example_message = false
  /\ artifacts (onCargoJson record_call (JMessage Sample.example_message)
                  (mkCollector [] [])) =
       [ {| a_fileName := "/p/target/debug/examples/hello";
            a_name := "hello";
            a_kind := Some "example" |} ]
  /\ ~ (artifacts (onCargoJson record_call (JMessage Sample.example_message)
                     (mkCollector [] [])) <> []
        <-> Spec.collects Sample.example_message = true).
Proof.
  repeat split; try reflexivity.
  intros [Hcollected _]. discriminate Hcollected. discriminate.
Qed.

(** C5.  An old-schema compiler-artifact message that passes the collection
    condition appends one artifact per [filenames] entry that does not end
    in [.dSYM], in order, each paired with the kind at the entry's index;
    an entry ending in [.dSYM] is never emitted. *)
Theorem old_schema_skips_dsym {M : Type}
    (onMessage : string -> M -> M) (message : Message) (st : collector M) :
  reason message = "compiler-artifact" ->
  collects message = true ->
  executable message = Js.Undefined ->
  let emitted := Spec.oldSchemaArtifacts message in
  artifacts (onCargoJson onMessage (JMessage message) st) = artifacts st ++ emitted
  /\ (forall a : CompilationArtifact,
        a ∈ emitted <->
        exists (i : nat) (file : string),
          filenames message !! i = Some file
          /\ ~ Spec.ends_in file ".dSYM"
          /\ a = {| a_fileName := file;
                    a_name := t_name (target message);
                    a_kind := t_kind (target message) !! i |})
  /\ a_fileName <$> emitted =
       List.filter (fun file => negb (Js.endsWith file ".dSYM"))
         (filenames message)
  /\ (forall a : CompilationArtifact,
        a ∈ emitted -> ~ Spec.ends_in (a_fileName a) ".dSYM").
Proof.
  intros Hreason Hcollects Hexe emitted. subst emitted.
  split; [|split; [|split]].
  - rewrite onCargoJson_artifacts, Hreason, Hcollects. simpl.
    unfold Spec.carried. now rewrite Hexe.
  - apply elem_of_oldSchemaArtifacts.
  - apply (oldSchemaArtifacts_files_from message 0).
  - intros a Hin. apply elem_of_oldSchemaArtifacts in Hin
      as (i & file & _ & Hend & ->). exact Hend.
Qed.

Lemma old_schema_skips_dsym_witness :
  artifacts (onCargoJson record_call (JMessage Sample.old_message)
               (mkCollector [] [])) =
    [ {| a_fileName := "/p/target/debug/demo";
         a_name := "demo";
         a_kind := None |} ].
Proof.
  apply (proj1 (old_schema_skips_dsym record_call Sample.old_message
                  (mkCollector [] []) eq_refl eq_refl eq_refl)).
Defined.

(** ** The stdout line listener *)

Section ListenerFacts.
Context {P : Platform} {S : Type}.
Variable onStdoutJson : json -> S -> S.
Variable onStderrString : string -> S -> S.

Local Abbreviation step := (onEvent onStdoutJson onStderrString).

Lemma onLine_plain (line : string) (st : listeners S) :
  Js.startsWith line "{" = false -> onLine onStdoutJson line st = st.
Proof. intros Hplain. unfold onLine. now rewrite Hplain. Qed.

Lemma onLine_malformed (line err : string) (st : listeners S) :
  Js.startsWith line "{" = true ->
  JSON_parse line = SyntaxError err ->
  onLine onStdoutJson line st =
    mkListeners (user st)
      (console st ++
         ["Could not parse JSON: " +:+ err +:+ " in " +:+ Js.DQUOTE +:+ line
            +:+ Js.DQUOTE]).
Proof. intros Hbrace Herr. unfold onLine. now rewrite Hbrace, Herr. Qed.

(** The callbacks never read the console. *)
Lemma onEvent_user (e : Process.event) (st st' : listeners S) :
  user st = user st' -> user (step st e) = user (step st' e).
Proof.
  intros Hu. destruct e as [line|chunk]; simpl.
  - unfold onLine. destruct (Js.startsWith line "{"); [|exact Hu].
    destruct (JSON_parse line); simpl; now rewrite Hu.
  - now rewrite Hu.
Qed.

Lemma fold_onEvent_user (evs : list Process.event) (st st' : listeners S) :
  user st = user st' ->
  user (fold_left step evs st) = user (fold_left step evs st').
Proof.
  revert st st'. induction evs as [|e evs IH]; intros st st' Hu; [exact Hu|].
  simpl. apply IH. now apply onEvent_user.
Qed.

(** The console only grows, by lines that depend on the events alone. *)
Lemma onEvent_console (e : Process.event) :
  exists logged, forall st : listeners S,
    console (step st e) = console st ++ logged.
Proof.
  destruct e as [line|chunk]; simpl.
  - unfold onLine. destruct (Js.startsWith line "{").
    + destruct (JSON_parse line) as [obj|err].
      * exists []. intros st. simpl. now rewrite app_nil_r.
      * eexists. intros st. reflexivity.
    + exists []. intros st. now rewrite app_nil_r.
  - exists []. intros st. simpl. now rewrite app_nil_r.
Qed.

Lemma fold_onEvent_console (evs : list Process.event) :
  exists logged, forall st : listeners S,
    console (fold_left step evs st) = console st ++ logged.
Proof.
  induction evs as [|e evs [later IH]].
  - exists []. intros st. simpl. now rewrite app_nil_r.
  - destruct (onEvent_console e) as [first Hfirst].
    exists (first ++ later). intros st. simpl.
    now rewrite IH, Hfirst, app_assoc.
Qed.

Lemma fold_onEvent_line (before after : list Process.event) (line : string)
    (st : listeners S) :
  fold_left step (before ++ Process.StdoutLine line :: after) st =
    fold_left step after (onLine onStdoutJson line (fold_left step before st)).
Proof. now rewrite fold_left_app. Qed.

End ListenerFacts.

(** [getCargoArtifacts] in terms of the fold over the events of the run. *)
Lemma getCargoArtifacts_with_run (P : Platform) {M : Type}
    (onMessage : string -> M -> M) (self : Cargo)
    (cargoArgs : option (list string)) (cargoEnv : Environment)
    (cargoCwd : option string) (m : M) (con : list string)
    (run : Process.run) :
  let st :=
    fold_left (onEvent (P := P) (onCargoJson onMessage) (onCargoStderr onMessage))
      (Process.events run) (mkListeners (mkCollector [] m) con) in
  getCargoArtifacts (P := with_run P run) onMessage self cargoArgs cargoEnv
    cargoCwd m con =
    (sink (user st), console st,
     match Process.settled run with
     | Process.SpawnError err =>
         Throw (Js.ErrorWithCause "Cargo invocation failed." err)
     | Process.Close _ => Return (artifacts (user st))
     end).
Proof.
  unfold getCargoArtifacts, runCargo. simpl.
  destruct (Process.settled run); reflexivity.
Qed.

(** C3 (as amended).  A stdout line that does not begin with an open brace
    is ignored: the line listener leaves the state of every callback and the
    console as they were, so the outcome of a collection (diagnostics
    forwarded, console, artifacts or error) is the outcome of the same run
    without that line. *)
Theorem plain_stdout_line_ignored (P : Platform) {M : Type}
    (onMessage : string -> M -> M) (self : Cargo)
    (cargoArgs : option (list string)) (cargoEnv : Environment)
    (cargoCwd : option string) (m : M) (con : list string)
    (before after : list Process.event) (fin : Process.ending)
    (line : string) (st : listeners (collector M)) :
  Js.startsWith line "{" = false ->
  onEvent (onCargoJson onMessage) (onCargoStderr onMessage) st
    (Process.StdoutLine line) = st
  /\ getCargoArtifacts
       (P := with_run P (Process.mkRun (before ++ Process.StdoutLine line :: after) fin))
       onMessage self cargoArgs cargoEnv cargoCwd m con =
     getCargoArtifacts
       (P := with_run P (Process.mkRun (before ++ after) fin))
       onMessage self cargoArgs cargoEnv cargoCwd m con.
Proof.
  intros Hplain. split; [now apply onLine_plain|].
  rewrite !getCargoArtifacts_with_run. cbn zeta. simpl Process.events.
  rewrite fold_onEvent_line, onLine_plain by exact Hplain.
  now rewrite fold_left_app.
Qed.

Lemma plain_stdout_line_ignored_witness :
  getCargoArtifacts (P := Sample.platform Sample.plain_run) record_call
    Sample.cargo (Some ["build"]) [] None [] [] =
  ([], [], Return []).
Proof.
  etransitivity;
    [apply (proj2 (plain_stdout_line_ignored
                     (Sample.platform Sample.plain_run) record_call Sample.cargo
                     (Some ["build"]) [] None [] [] [] []
                     (Process.Close (Some 0)) Sample.plain_line
                     (mkListeners (mkCollector [] []) []) eq_refl))
    | reflexivity].
Defined.

(** C3 as stated fails: the progress line of [Sample.plain_run] never
    reaches the diagnostic callback. *)
Lemma plain_stdout_line_forwarded_counterexample :
  Js.startsWith Sample.plain_line "{" = false
  /\ ~ (Sample.plain_line ∈
          (getCargoArtifacts (P := Sample.platform Sample.plain_run) record_call
             Sample.cargo (Some ["build"]) [] None [] []).1.1).
Proof.
  split; [reflexivity|]. vm_compute. intros H. inversion H.
Qed.

(** C8.  A stdout line that begins with an open brace and does not parse is
    logged on the console and dropped: the diagnostics forwarded and the
    artifacts or error returned are those of the same run without the line,
    so the messages after it are processed as usual, and the console holds
    the log entry at the place of the line. *)
Theorem malformed_json_line_recovered (P : Platform) {M : Type}
    (onMessage : string -> M -> M) (self : Cargo)
    (cargoArgs : option (list string)) (cargoEnv : Environment)
    (cargoCwd : option string) (m : M) (con : list string)
    (before after : list Process.event) (fin : Process.ending)
    (line err : string) :
  Js.startsWith line "{" = true ->
  JSON_parse line = SyntaxError err ->
  let collect events :=
    getCargoArtifacts (P := with_run P (Process.mkRun events fin))
      onMessage self cargoArgs cargoEnv cargoCwd m con in
  let with_line := collect (before ++ Process.StdoutLine line :: after) in
  let without := collect (before ++ after) in
  with_line.1.1 = without.1.1
  /\ with_line.2 = without.2
  /\ exists logged_before logged_after : list string,
       (collect before).1.2 = con ++ logged_before
       /\ without.1.2 = con ++ logged_before ++ logged_after
       /\ with_line.1.2 =
            con ++ logged_before
              ++ ["Could not parse JSON: " +:+ err +:+ " in " +:+ Js.DQUOTE
                    +:+ line +:+ Js.DQUOTE]
              ++ logged_after.
Proof.
  intros Hbrace Herr collect with_line without.
  subst with_line without collect. cbv beta.
  rewrite !getCargoArtifacts_with_run. cbv zeta. simpl Process.events.
  simpl Process.settled. rewrite fold_onEvent_line, fold_left_app.
  set (step := onEvent (onCargoJson onMessage) (onCargoStderr onMessage)).
  set (st0 := mkListeners (mkCollector [] m) con).
  set (st1 := fold_left step before st0).
  rewrite (onLine_malformed _ line err st1 Hbrace Herr).
  set (st1' := mkListeners (user st1) _).
  assert (Huser : user (fold_left step after st1') =
                  user (fold_left step after st1)).
  { apply fold_onEvent_user. reflexivity. }
  destruct (fold_onEvent_console (onCargoJson onMessage)
              (onCargoStderr onMessage) before) as [logged_before Hbefore].
  destruct (fold_onEvent_console (onCargoJson onMessage)
              (onCargoStderr onMessage) after) as [logged_after Hafter].
  simpl. split; [now rewrite Huser|]. split; [now rewrite Huser|].
  exists logged_before, logged_after. fold step in Hbefore, Hafter.
  rewrite !Hafter. subst st1 st1'. simpl. rewrite !Hbefore. subst st0. simpl.
  repeat split; now rewrite <- ?app_assoc.
Qed.

Lemma malformed_json_line_recovered_witness :
  (getCargoArtifacts (P := Sample.platform Sample.interleaved_run) record_call
     Sample.cargo (Some ["build"]) [] None [] []).2 =
  Return [ {| a_fileName := "/p/target/debug/demo";
              a_name := "demo";
              a_kind := Some "bin" |} ].
Proof.
  etransitivity;
    [apply (proj1 (proj2 (malformed_json_line_recovered
                            (Sample.platform Sample.interleaved_run) record_call
                            Sample.cargo (Some ["build"]) [] None [] [] []
                            [Process.StdoutLine Sample.artifact_line]
                            (Process.Close (Some 0)) Sample.malformed_line
                            Sample.syntax_error eq_refl eq_refl)))
    | reflexivity].
Defined.

(** ** Launch configurations *)

(** [getLaunchConfigs] in terms of the fold over the events of the run. *)
Lemma getLaunchConfigs_with_run (P : Platform) (self : Cargo)
    (directory : option string) (out : OutputChannel.t) (con : list string)
    (run : Process.run) :
  let st :=
    fold_left (onEvent (P := P) onMetadataJson onMetadataStderr)
      (Process.events run) (mkListeners (None, out) con) in
  (getLaunchConfigs (P := with_run P run) self directory out con).2 =
    match Process.settled run with
    | Process.SpawnError e =>
        if decide (Js.code e = Some "ENOENT")
        then Return DEFAULT_LAUNCH_CONFIGS else Throw e
    | Process.Close exitCode =>
        if exitCode_nonzero exitCode then Return DEFAULT_LAUNCH_CONFIGS
        else match (user st).1 with
             | None => Throw (Js.Error "Cargo has produced no metadata")
             | Some (JMessage _) =>
                 Throw (Js.TypeError "metadata.packages is not iterable")
             | Some (JMetadata md) =>
                 Return (fold_left (packageStep directory) (packages md) [])
             end
    end.
Proof.
  unfold getLaunchConfigs, runCargo. cbn [spawn with_run].
  destruct (Process.settled run) as [e|exitCode];
    destruct (user (fold_left _ (Process.events run) _)) as [metadata out'].
  - destruct (decide (Js.code e = Some "ENOENT")); reflexivity.
  - destruct (exitCode_nonzero exitCode); [reflexivity|].
    destruct metadata as [[msg|md]|]; reflexivity.
Qed.

(** The variable [metadata] stays [null] while no stdout line parses. *)
Lemma metadata_stays_null (P : Platform) (evs : list Process.event)
    (st : listeners metadata_state) :
  (forall line, Process.StdoutLine line ∈ evs ->
                Js.startsWith line "{" = true ->
                exists err, JSON_parse line = SyntaxError err) ->
  (user st).1 = None ->
  (user (fold_left (onEvent onMetadataJson onMetadataStderr) evs st)).1 = None.
Proof.
  revert st. induction evs as [|e evs IH]; intros st Hnone Hst; [exact Hst|].
  simpl. apply IH.
  - intros line Hin. apply Hnone. now apply list_elem_of_further.
  - destruct e as [line|chunk]; simpl; [|exact Hst].
    unfold onLine. destruct (Js.startsWith line "{") eqn:Hbrace; [|exact Hst].
    destruct (Hnone line (list_elem_of_here _ _) Hbrace) as [err Herr].
    now rewrite Herr.
Qed.

(** C4.  When the executable cannot be found ([ENOENT]) or the tool exits
    with a code other than 0, enumerating launch configurations returns the
    single built-in default configuration; when the tool exits with 0 and no
    stdout line parsed, it throws the no-metadata error. *)
Theorem getLaunchConfigs_fallback (P : Platform) (self : Cargo)
    (directory : option string) (out : OutputChannel.t) (con : list string)
    (run : Process.run) :
  let result :=
    (getLaunchConfigs (P := with_run P run) self directory out con).2 in
  length DEFAULT_LAUNCH_CONFIGS = 1%nat
  /\ (forall e, Process.settled run = Process.SpawnError e ->
                Js.code e = Some "ENOENT" ->
                result = Return DEFAULT_LAUNCH_CONFIGS)
  /\ (forall exitCode, Process.settled run = Process.Close exitCode ->
                       exitCode <> Some 0 ->
                       result = Return DEFAULT_LAUNCH_CONFIGS)
  /\ (Process.settled run = Process.Close (Some 0) ->
      (forall line, Process.StdoutLine line ∈ Process.events run ->
                    Js.startsWith line "{" = true ->
                    exists err, JSON_parse line = SyntaxError err) ->
      result = Throw (Js.Error "Cargo has produced no metadata")).
Proof.
  intros result. subst result. rewrite getLaunchConfigs_with_run. cbv zeta.
  split; [reflexivity|]. split; [|split].
  - intros e -> Hcode. now rewrite decide_True.
  - intros exitCode -> Hcode.
    destruct exitCode as [c|]; [|reflexivity]. simpl.
    destruct (Z.eqb_spec c 0) as [->|Hne]; [congruence | reflexivity].
  - intros -> Hnone. simpl.
    now rewrite (metadata_stays_null P (Process.events run)
                   (mkListeners (None, out) con) Hnone eq_refl).
Qed.

Lemma getLaunchConfigs_fallback_witness :
  (getLaunchConfigs (P := Sample.platform Sample.enoent_run) Sample.cargo None
     [] []).2 = Return DEFAULT_LAUNCH_CONFIGS
  /\ (getLaunchConfigs (P := Sample.platform Sample.no_manifest_run)
        Sample.cargo None [] []).2 = Return DEFAULT_LAUNCH_CONFIGS
  /\ (getLaunchConfigs (P := Sample.platform Sample.silent_run) Sample.cargo
        None [] []).2 = Throw (Js.Error "Cargo has produced no metadata").
Proof.
  split; [|split].
  - apply (proj1 (proj2 (getLaunchConfigs_fallback
                           (Sample.platform Sample.enoent_run) Sample.cargo None
                           [] [] Sample.enoent_run)) _ eq_refl eq_refl).
  - apply (proj1 (proj2 (proj2 (getLaunchConfigs_fallback
                                  (Sample.platform Sample.no_manifest_run)
                                  Sample.cargo None [] []
                                  Sample.no_manifest_run))) _ eq_refl).
    discriminate.
  - apply (proj2 (proj2 (proj2 (getLaunchConfigs_fallback
                                  (Sample.platform Sample.silent_run)
                                  Sample.cargo None [] [] Sample.silent_run)))
             eq_refl).
    intros line Hin. simpl in Hin. inversion Hin.
Defined.

Lemma libraryDescriptor_recognised (pkg : Package) (directory : option string)
    (target : MetadataTarget) :
  Spec.isLibraryDescriptor (Spec.libraryDescriptor pkg directory target) = true.
Proof.
  unfold Spec.isLibraryDescriptor, Spec.libraryDescriptor. cbn [dc_name].
  destruct (mt_name target); reflexivity.
Qed.

Section SynthesisFacts.
Variable pkg : Package.
Variable directory : option string.
Variable target : MetadataTarget.

Local Abbreviation step := (kindStep pkg directory target).
Local Abbreviation plain c := (Spec.isLibraryDescriptor c = false).

Lemma kindStep_library_first (kind : string)
    (configs : list DebugConfiguration) :
  isLibraryCase kind = true ->
  step (false, configs) kind =
    (true, configs ++ [Spec.libraryDescriptor pkg directory target]).
Proof. intros Hlib. unfold kindStep. now rewrite Hlib. Qed.

Lemma kindStep_library_later (kind : string)
    (configs : list DebugConfiguration) :
  isLibraryCase kind = true -> step (true, configs) kind = (true, configs).
Proof. intros Hlib. unfold kindStep. now rewrite Hlib. Qed.

(** A kind outside the library family appends descriptors that do not
    depend on the flag or on the array, none of them a library one. *)
Lemma kindStep_other (kind : string) :
  isLibraryCase kind = false ->
  exists emitted,
    Forall (fun c => plain c) emitted
    /\ forall libAdded configs,
         step (libAdded, configs) kind = (libAdded, configs ++ emitted).
Proof.
  intros Hlib. unfold kindStep. rewrite Hlib.
  destruct (isExecutableCase kind) eqn:Hexe.
  - eexists. split; [|intros libAdded configs; unfold addConfig;
                      rewrite <- app_assoc; reflexivity].
    unfold isExecutableCase in Hexe. apply orb_true_iff in Hexe.
    destruct Hexe as [H|H]; apply String.eqb_eq in H; subst kind;
      repeat constructor.
  - destruct (isTestCase kind) eqn:Htest.
    + eexists. split; [|intros libAdded configs; reflexivity].
      unfold isTestCase in Htest. apply orb_true_iff in Htest.
      destruct Htest as [H|H]; apply String.eqb_eq in H; subst kind;
        repeat constructor.
    + exists []. split; [constructor|].
      intros libAdded configs. now rewrite app_nil_r.
Qed.

Lemma fold_kindStep_other (kinds : list string) :
  Forall (fun k => isLibraryCase k = false) kinds ->
  exists emitted,
    Forall (fun c => plain c) emitted
    /\ forall libAdded configs,
         fold_left step kinds (libAdded, configs) =
           (libAdded, configs ++ emitted).
Proof.
  induction 1 as [|kind kinds Hkind _ [later [Hlater IH]]].
  - exists []. split; [constructor|].
    intros libAdded configs. simpl. now rewrite app_nil_r.
  - destruct (kindStep_other kind Hkind) as [first [Hfirst Hstep]].
    exists (first ++ later). split; [now apply Forall_app|].
    intros libAdded configs. cbn [fold_left].
    now rewrite Hstep, IH, app_assoc.
Qed.

Lemma filter_other_Forall (kinds : list string) :
  Forall (fun k => isLibraryCase k = false)
    (List.filter (fun k => negb (isLibraryCase k)) kinds).
Proof.
  apply List.Forall_forall. intros k Hin.
  apply filter_In in Hin as [_ Hk]. now apply negb_true_iff.
Qed.

(** Once the flag is set, the library kinds are as good as absent. *)
Lemma fold_kindStep_added (kinds : list string)
    (configs : list DebugConfiguration) :
  fold_left step kinds (true, configs) =
    fold_left step (List.filter (fun k => negb (isLibraryCase k)) kinds)
      (true, configs).
Proof.
  revert configs. induction kinds as [|kind kinds IH]; intros configs;
    [reflexivity|].
  cbn [fold_left List.filter]. destruct (isLibraryCase kind) eqn:Hkind.
  - cbn [negb]. rewrite kindStep_library_later by exact Hkind. apply IH.
  - cbn [negb fold_left].
    destruct (kindStep_other kind Hkind) as [first [_ Hstep]].
    rewrite Hstep. apply IH.
Qed.

(** The kind list of a target that has a library kind, split at the first
    one. *)
Lemma first_library_kind (kinds : list string) :
  (exists kind, kind ∈ kinds /\ isLibraryCase kind = true) ->
  exists pre first post,
    kinds = pre ++ first :: post
    /\ Forall (fun k => isLibraryCase k = false) pre
    /\ isLibraryCase first = true.
Proof.
  induction kinds as [|kind kinds IH]; intros [k [Hin Hk]].
  - inversion Hin.
  - destruct (isLibraryCase kind) eqn:Hkind.
    + exists [], kind, kinds. repeat split; [constructor | exact Hkind].
    + destruct IH as (pre & first & post & -> & Hpre & Hfirst).
      * exists k. split; [|exact Hk].
        apply elem_of_cons in Hin as [->|Hin]; [congruence | exact Hin].
      * exists (kind :: pre), first, post.
        repeat split; [now constructor | exact Hfirst].
Qed.

(** The descriptors of a target, split at its first library kind. *)
Lemma targetStep_split (configs : list DebugConfiguration)
    (pre post : list string) (first : string) :
  mt_kind target = pre ++ first :: post ->
  Forall (fun k => isLibraryCase k = false) pre ->
  isLibraryCase first = true ->
  exists before after,
    Forall (fun c => plain c) before /\ Forall (fun c => plain c) after
    /\ (forall b cs, fold_left step pre (b, cs) = (b, cs ++ before))
    /\ (forall b cs,
          fold_left step (List.filter (fun k => negb (isLibraryCase k)) post)
            (b, cs) = (b, cs ++ after))
    /\ targetStep pkg directory configs target =
         configs ++ before ++ [Spec.libraryDescriptor pkg directory target]
           ++ after.
Proof.
  intros Hkinds Hpre Hfirst.
  destruct (fold_kindStep_other pre Hpre) as [before [Hbefore Hfold_pre]].
  destruct (fold_kindStep_other _ (filter_other_Forall post))
    as [after [Hafter Hfold_post]].
  exists before, after. repeat split; try assumption.
  unfold targetStep. rewrite Hkinds, fold_left_app, Hfold_pre.
  cbn [fold_left]. rewrite kindStep_library_first by exact Hfirst.
  rewrite fold_kindStep_added, Hfold_post. simpl.
  now rewrite <- !app_assoc.
Qed.

Lemma filter_plain (configs : list DebugConfiguration) :
  Forall (fun c => plain c) configs ->
  List.filter Spec.isLibraryDescriptor configs = [].
Proof.
  induction 1 as [|c configs Hc _ IH]; [reflexivity|].
  simpl. now rewrite Hc.
Qed.

(** [kindStep] reads only the name of the target. *)
Lemma targetStep_same_name (kinds : list string) :
  targetStep pkg directory []
    {| mt_name := mt_name target; mt_kind := kinds |} =
  (fold_left step kinds (false, [])).2.
Proof. reflexivity. Qed.

(** Every library descriptor of a target is the one of [kindStep]. *)
Lemma targetStep_library_descriptors (c : DebugConfiguration) :
  c ∈ targetStep pkg directory [] target ->
  Spec.isLibraryDescriptor c = true ->
  c = Spec.libraryDescriptor pkg directory target.
Proof.
  intros Hin Hlib.
  assert (Hplain : forall cs, Forall (fun c => plain c) cs -> c ∈ cs -> False).
  { intros cs Hcs Hc. rewrite List.Forall_forall in Hcs.
    apply list_elem_of_In, Hcs in Hc. congruence. }
  destruct (existsb isLibraryCase (mt_kind target)) eqn:Hany.
  - apply existsb_exists in Hany as [kind [Hkind Hfamily]].
    destruct (first_library_kind (mt_kind target))
      as (pre & first & post & Hkinds & Hpre & Hfirst).
    { exists kind. split; [now apply list_elem_of_In | exact Hfamily]. }
    destruct (targetStep_split [] pre post first Hkinds Hpre Hfirst)
      as (before & after & Hbefore & Hafter & _ & _ & Hsplit).
    rewrite Hsplit in Hin. simpl in Hin.
    apply elem_of_app in Hin as [Hin|Hin]; [destruct (Hplain _ Hbefore Hin)|].
    apply elem_of_cons in Hin as [Hin|Hin]; [exact Hin|].
    destruct (Hplain _ Hafter Hin).
  - destruct (fold_kindStep_other (mt_kind target)) as [emitted [Hplain' Hfold]].
    { apply List.Forall_forall. intros k Hk.
      destruct (isLibraryCase k) eqn:Hfamily; [|reflexivity].
      assert (existsb isLibraryCase (mt_kind target) = true)
        by (apply existsb_exists; eauto).
      congruence. }
    unfold targetStep in Hin. rewrite Hfold in Hin. simpl in Hin.
    destruct (Hplain _ Hplain' Hin).
Qed.

(** What a kind appends does not depend on the array it is appended to. *)
Lemma kindStep_append (kind : string) (libAdded : bool)
    (configs : list DebugConfiguration) :
  step (libAdded, configs) kind =
    ((step (libAdded, []) kind).1, configs ++ (step (libAdded, []) kind).2).
Proof.
  destruct (isLibraryCase kind) eqn:Hkind.
  - destruct libAdded.
    + rewrite !kindStep_library_later by exact Hkind. simpl.
      now rewrite app_nil_r.
    + now rewrite !kindStep_library_first by exact Hkind.
  - destruct (kindStep_other kind Hkind) as [emitted [_ Hstep]].
    now rewrite !Hstep.
Qed.

Lemma fold_kindStep_append (kinds : list string) (libAdded : bool)
    (configs : list DebugConfiguration) :
  fold_left step kinds (libAdded, configs) =
    ((fold_left step kinds (libAdded, [])).1,
     configs ++ (fold_left step kinds (libAdded, [])).2).
Proof.
  revert libAdded configs.
  induction kinds as [|kind kinds IH]; intros libAdded configs.
  - simpl. now rewrite app_nil_r.
  - cbn [fold_left]. rewrite (kindStep_append kind libAdded configs).
    destruct (step (libAdded, []) kind) as [flag first]. cbn [fst snd].
    rewrite (IH flag (configs ++ first)), (IH flag first).
    cbn [fst snd]. now rewrite app_assoc.
Qed.

Lemma targetStep_append (configs : list DebugConfiguration) :
  targetStep pkg directory configs target =
    configs ++ targetStep pkg directory [] target.
Proof. unfold targetStep. now rewrite fold_kindStep_append. Qed.

End SynthesisFacts.

(** The configurations of a metadata document are the descriptors of its
    targets, package by package and target by target. *)
Lemma packageStep_flat_map (directory : option string) (pkg : Package)
    (configs : list DebugConfiguration) :
  packageStep directory configs pkg =
    configs ++ flat_map (targetStep pkg directory []) (p_targets pkg).
Proof.
  unfold packageStep. revert configs.
  induction (p_targets pkg) as [|target targets IH]; intros configs.
  - simpl. now rewrite app_nil_r.
  - cbn [fold_left flat_map]. rewrite IH, targetStep_append.
    now rewrite <- app_assoc.
Qed.

Lemma synthesis_flat_map (directory : option string) (pkgs : list Package)
    (configs : list DebugConfiguration) :
  fold_left (packageStep directory) pkgs configs =
    configs ++
      flat_map (fun pkg => flat_map (targetStep pkg directory []) (p_targets pkg))
        pkgs.
Proof.
  revert configs. induction pkgs as [|pkg pkgs IH]; intros configs.
  - simpl. now rewrite app_nil_r.
  - cbn [fold_left flat_map]. rewrite IH, packageStep_flat_map.
    now rewrite <- app_assoc.
Qed.

(** When the tool exits with 0 and the last object parsed is a metadata
    document, [getLaunchConfigs] returns the descriptors of its targets. *)
Lemma getLaunchConfigs_synthesizes (P : Platform) (self : Cargo)
    (directory : option string) (out : OutputChannel.t) (con : list string)
    (run : Process.run) (md : Metadata) :
  Process.settled run = Process.Close (Some 0) ->
  (user (fold_left (onEvent onMetadataJson onMetadataStderr)
           (Process.events run) (mkListeners (None, out) con))).1 =
    Some (JMetadata md) ->
  (getLaunchConfigs (P := with_run P run) self directory out con).2 =
    Return
      (flat_map (fun pkg => flat_map (targetStep pkg directory []) (p_targets pkg))
         (packages md)).
Proof.
  intros Hexit Hmd. rewrite getLaunchConfigs_with_run. cbv zeta.
  rewrite Hexit, Hmd. simpl. now rewrite synthesis_flat_map.
Qed.

(** C6.  A target whose kind list has a library-family kind gets exactly one
    "debug unit tests in library" descriptor: it is appended when the first
    such kind is reached, after the descriptors of the kinds before it, and
    the kinds after it add what they would add with their library kinds
    left out. *)
Theorem library_descriptor_once (pkg : Package) (directory : option string)
    (target : MetadataTarget) (configs : list DebugConfiguration) :
  (exists kind, kind ∈ mt_kind target /\ isLibraryCase kind = true) ->
  exists (pre : list string) (first : string) (post : list string)
         (before after : list DebugConfiguration),
    mt_kind target = pre ++ first :: post
    /\ Forall (fun k => isLibraryCase k = false) pre
    /\ isLibraryCase first = true
    /\ before =
         targetStep pkg directory []
           {| mt_name := mt_name target; mt_kind := pre |}
    /\ after =
         targetStep pkg directory []
           {| mt_name := mt_name target;
              mt_kind := List.filter (fun k => negb (isLibraryCase k)) post |}
    /\ targetStep pkg directory configs target =
         configs ++ before ++ [Spec.libraryDescriptor pkg directory target]
           ++ after
    /\ List.filter Spec.isLibraryDescriptor
         (before ++ [Spec.libraryDescriptor pkg directory target] ++ after) =
         [Spec.libraryDescriptor pkg directory target].
Proof.
  intros Hany.
  destruct (first_library_kind _ Hany)
    as (pre & first & post & Hkinds & Hpre & Hfirst).
  destruct (targetStep_split pkg directory target configs pre post first
              Hkinds Hpre Hfirst)
    as (before & after & Hbefore & Hafter & Hfold_pre & Hfold_post & Hsplit).
  exists pre, first, post, before, after.
  split; [exact Hkinds|]. split; [exact Hpre|]. split; [exact Hfirst|].
  split; [now rewrite targetStep_same_name, Hfold_pre|].
  split; [now rewrite targetStep_same_name, Hfold_post|].
  split; [exact Hsplit|].
  rewrite !List.filter_app, (filter_plain _ Hbefore), (filter_plain _ Hafter).
  rewrite app_nil_r. cbn [List.filter app].
  now rewrite libraryDescriptor_recognised.
Qed.

Lemma library_descriptor_once_witness :
  exists (pre : list string) (first : string) (post : list string)
         (before after : list DebugConfiguration),
    ["lib"; "staticlib"] = pre ++ first :: post
    /\ Forall (fun k => isLibraryCase k = false) pre
    /\ isLibraryCase first = true
    /\ before =
         targetStep Sample.demo_package None []
           {| mt_name := "demo"; mt_kind := pre |}
    /\ after =
         targetStep Sample.demo_package None []
           {| mt_name := "demo";
              mt_kind := List.filter (fun k => negb (isLibraryCase k)) post |}
    /\ targetStep Sample.demo_package None [] Sample.lib_target =
         [] ++ before
           ++ [Spec.libraryDescriptor Sample.demo_package None Sample.lib_target]
           ++ after
    /\ List.filter Spec.isLibraryDescriptor
         (before
            ++ [Spec.libraryDescriptor Sample.demo_package None Sample.lib_target]
            ++ after) =
         [Spec.libraryDescriptor Sample.demo_package None Sample.lib_target].
Proof.
  apply (library_descriptor_once Sample.demo_package None Sample.lib_target []).
  exists "lib". split; [compute_done | reflexivity].
Defined.

(** C7.  A target whose kind list is exactly ["bin"] gets exactly two
    descriptors: "Debug executable '<name>'", which builds the binary, and
    "Debug unit tests in executable '<name>'", which builds its unit tests.
    The label of [bin] is "executable"; that of [example] is the kind
    itself. *)
Theorem executable_descriptors (pkg : Package) (directory : option string)
    (target : MetadataTarget) (configs : list DebugConfiguration) :
  let descriptor name args kind :=
    {| dc_type := "lldb";
       dc_request := "launch";
       dc_name := name;
       dc_program := None;
       dc_cargo :=
         Some {| cargo_args := args ++ ["--package=" +:+ p_name pkg];
                 cargo_filter := {| f_name := Some (mt_name target);
                                    f_kind := Some kind |};
                 cargo_cwd := if Js.truthy directory then directory else None |};
       dc_args := [];
       dc_cwd := "${workspaceFolder}" |} in
  (mt_kind target = ["bin"] ->
   targetStep pkg directory configs target =
     configs ++
       [ descriptor ("Debug executable '" +:+ mt_name target +:+ "'")
           ["build"; "--bin=" +:+ mt_name target] "bin";
         descriptor
           ("Debug unit tests in executable '" +:+ mt_name target +:+ "'")
           ["test"; "--no-run"; "--bin=" +:+ mt_name target] "bin" ])
  /\ (mt_kind target = ["example"] ->
      targetStep pkg directory configs target =
        configs ++
          [ descriptor ("Debug example '" +:+ mt_name target +:+ "'")
              ["build"; "--example=" +:+ mt_name target] "example";
            descriptor
              ("Debug unit tests in example '" +:+ mt_name target +:+ "'")
              ["test"; "--no-run"; "--example=" +:+ mt_name target] "example" ]).
Proof.
  cbv zeta. unfold targetStep.
  split; intros ->; cbn [fold_left]; unfold kindStep, addConfig; simpl;
    now rewrite <- app_assoc.
Qed.

Lemma executable_descriptors_witness :
  dc_name <$> targetStep Sample.demo_package None [] Sample.bin_target =
    ["Debug executable 'demo'"; "Debug unit tests in executable 'demo'"].
Proof.
  rewrite (proj1 (executable_descriptors Sample.demo_package None
                    Sample.bin_target []) eq_refl).
  reflexivity.
Defined.

(** C10 (as amended).  Whatever library-family kind triggers it, the
    "debug unit tests in library" descriptor of a target has the artifact
    filter kind "lib" and the build arguments [test], [--no-run], [--lib]
    followed by the package selection [--package=<package name>]. *)
Theorem library_descriptor_uses_lib (pkg : Package) (directory : option string)
    (target : MetadataTarget) (configs : list DebugConfiguration)
    (kind : string) :
  let cargo :=
    {| cargo_args := ["test"; "--no-run"; "--lib"; "--package=" +:+ p_name pkg];
       cargo_filter := {| f_name := Some (mt_name target);
                          f_kind := Some "lib" |};
       cargo_cwd := if Js.truthy directory then directory else None |} in
  (kind ∈ ["lib"; "rlib"; "staticlib"; "dylib"; "cstaticlib"] ->
   exists c,
     kindStep pkg directory target (false, configs) kind = (true, configs ++ [c])
     /\ dc_name c = "Debug unit tests in library '" +:+ mt_name target +:+ "'"
     /\ dc_cargo c = Some cargo)
  /\ (forall c,
        c ∈ targetStep pkg directory [] target ->
        Spec.isLibraryDescriptor c = true ->
        dc_cargo c = Some cargo).
Proof.
  cbv zeta. split.
  - intros Hkind. exists (Spec.libraryDescriptor pkg directory target).
    split; [|split; reflexivity].
    apply kindStep_library_first.
    repeat (apply elem_of_cons in Hkind as [->|Hkind]; [reflexivity|]).
    inversion Hkind.
  - intros c Hin Hlib.
    now rewrite (targetStep_library_descriptors pkg directory target c Hin Hlib).
Qed.

Lemma library_descriptor_uses_lib_witness :
  exists c,
    kindStep Sample.demo_package None Sample.rlib_target (false, []) "rlib" =
      (true, [] ++ [c])
    /\ dc_name c = "Debug unit tests in library 'demo'"
    /\ dc_cargo c =
         Some {| cargo_args := ["test"; "--no-run"; "--lib"; "--package=demo"];
                 cargo_filter := {| f_name := Some "demo"; f_kind := Some "lib" |};
                 cargo_cwd := None |}.
Proof.
  apply (proj1 (library_descriptor_uses_lib Sample.demo_package None
                  Sample.rlib_target [] "rlib")).
  compute_done.
Defined.

(** C10 as stated fails: the build arguments of the descriptor are not the
    three-element list, since the package selection is appended to them. *)
Lemma library_descriptor_args_counterexample :
  exists c,
    targetStep Sample.demo_package None [] Sample.rlib_target = [c]
    /\ Spec.isLibraryDescriptor c = true
    /\ cargo_args <$> dc_cargo c =
         Some ["test"; "--no-run"; "--lib"; "--package=demo"]
    /\ cargo_args <$> dc_cargo c <> Some ["test"; "--no-run"; "--lib"].
Proof.
  eexists. split; [reflexivity|]. split; [reflexivity|].
  split; [reflexivity | discriminate].
Qed.

(** ** The argument array of the task *)

Section SpliceFacts.

Local Abbreviation flags := ["--message-format=json"; "--color=always"].





End SpliceFacts.





(** The process of [Echo.platform] reports the arguments it was started
    with: they are the caller's with the flags before the separator. *)
Example echo_reports_flags :
  o_written (g_task (getProgramFromCargoConfig (P := Echo.platform)
                       Sample.cargo Echo.config Sample.task Echo.heap [] [])) =
    ["Running `cargo build --message-format=json --color=always -- -v`..."
       +:+ Js.CRLF;
     "build --message-format=json --color=always -- -v"].
Proof. vm_compute. reflexivity. Qed.

(** * Further properties *)

(** ** The process driver, event by event *)

Section TraceFacts.
Context {P : Platform} {S : Type}.
Variable onStdoutJson : json -> S -> S.
Variable onStderrString : string -> S -> S.

Lemma fold_onEvent_trace (evs : list Process.event) (st : listeners S) :
  fold_left (onEvent onStdoutJson onStderrString) evs st =
    mkListeners
      (fold_left (deliver onStdoutJson onStderrString)
         (omap Trace.delivery evs) (user st))
      (console st ++ omap Trace.failure evs).
Proof.
  revert st. induction evs as [|e evs IH]; intros st.
  - simpl. rewrite app_nil_r. now destruct st.
  - cbn [fold_left]. rewrite IH. destruct e as [line|chunk].
    + cbn [onEvent omap list_omap Trace.delivery Trace.failure].
      unfold onLine, Trace.parsed.
      destruct (Js.startsWith line "{"); [|reflexivity].
      destruct (JSON_parse line) as [obj|err]; cbn; [reflexivity|].
      now rewrite <- app_assoc.
    + reflexivity.
Qed.

End TraceFacts.

(** X1.  [runCargo] hands every stdout line that starts with an open brace
    and parses to [onStdoutJson] and every stderr chunk to [onStderrString],
    once each and in arrival order; the console gains one line per
    brace-prefixed line that does not parse and nothing else; the promise
    is rejected with the spawn error or fulfilled with the exit code. *)
Theorem runCargo_delivers_in_order (P : Platform) {S : Type}
    (onStdoutJson : json -> S -> S) (onStderrString : string -> S -> S)
    (self : Cargo) (args : option (list string)) (env : Environment)
    (cwd : option string) (st : listeners S) (run : Process.run) :
  runCargo (P := with_run P run) onStdoutJson onStderrString self args env cwd st =
    (mkListeners
       (fold_left (deliver onStdoutJson onStderrString)
          (omap Trace.delivery (Process.events run)) (user st))
       (console st ++ omap Trace.failure (Process.events run)),
     match Process.settled run with
     | Process.SpawnError err => Throw err
     | Process.Close exitCode => Return exitCode
     end).
Proof.
  unfold runCargo. rewrite (fold_onEvent_trace (P := with_run P run)).
  cbn [spawn with_run]. destruct (Process.settled run); reflexivity.
Qed.

(** ** Collection, event by event *)

Section CollectionFacts.
Context {P : Platform} {M : Type}.
Variable onMessage : string -> M -> M.

(** What a message does to the state of [onMessage]. *)
Lemma onCargoJson_sink (message : Message) (st : collector M) :
  sink (onCargoJson onMessage (JMessage message) st) =
    if String.eqb (reason message) "compiler-message"
    then onMessage (message_rendered message) (sink st)
    else sink st.
Proof.
  unfold onCargoJson.
  destruct (String.eqb_spec (reason message) "compiler-artifact") as [->|_].
  - simpl. destruct (collects message); [|reflexivity].
    destruct (executable message); reflexivity.
  - destruct (String.eqb (reason message) "compiler-message"); reflexivity.
Qed.

Lemma collector_trace (evs : list Process.event)
    (st : listeners (collector M)) :
  let st' :=
    fold_left (onEvent (onCargoJson onMessage) (onCargoStderr onMessage)) evs st in
  artifacts (user st') =
    artifacts (user st) ++ flat_map Trace.contribution evs
  /\ sink (user st') =
       fold_left (fun s d => onMessage d s) (omap Trace.diagnostic evs)
         (sink (user st)).
Proof.
  cbv zeta. revert st. induction evs as [|e evs IH]; intros st.
  - simpl. now rewrite app_nil_r.
  - cbn [fold_left].
    destruct (IH (onEvent (onCargoJson onMessage) (onCargoStderr onMessage)
                    st e)) as [Harts Hsink].
    rewrite Harts, Hsink. clear IH Harts Hsink.
    destruct e as [line|chunk]; [|split; reflexivity].
    cbn [onEvent flat_map omap list_omap Trace.contribution Trace.diagnostic].
    unfold onLine, Trace.parsed.
    destruct (Js.startsWith line "{"); [|split; reflexivity].
    destruct (JSON_parse line) as [[message|md]|err]; cbn [user];
      try (split; reflexivity).
    rewrite onCargoJson_artifacts, onCargoJson_sink.
    split; [now rewrite <- app_assoc|].
    destruct (String.eqb (reason message) "compiler-message"); reflexivity.
Qed.

End CollectionFacts.

(** [getCargoArtifacts] read off the events of the run. *)
Lemma getCargoArtifacts_trace (P : Platform) {M : Type}
    (onMessage : string -> M -> M) (self : Cargo)
    (cargoArgs : option (list string)) (cargoEnv : Environment)
    (cargoCwd : option string) (m : M) (con : list string)
    (run : Process.run) :
  getCargoArtifacts (P := with_run P run) onMessage self cargoArgs cargoEnv
    cargoCwd m con =
    (fold_left (fun s d => onMessage d s)
       (omap Trace.diagnostic (Process.events run)) m,
     con ++ omap Trace.failure (Process.events run),
     match Process.settled run with
     | Process.SpawnError err =>
         Throw (Js.ErrorWithCause "Cargo invocation failed." err)
     | Process.Close _ =>
         Return (flat_map Trace.contribution (Process.events run))
     end).
Proof.
  rewrite getCargoArtifacts_with_run. cbv zeta.
  destruct (collector_trace (P := P) onMessage (Process.events run)
              (mkListeners (mkCollector [] m) con)) as [Harts Hsink].
  rewrite Harts, Hsink, (fold_onEvent_trace (P := P)). reflexivity.
Qed.

(** X2.  When the process closes, whatever its exit code, collection
    returns the artifacts that the stdout lines contributed, in emission
    order; when the process cannot be spawned it throws "Cargo invocation
    failed." with the spawn error as its cause. *)
Theorem getCargoArtifacts_outcome (P : Platform) {M : Type}
    (onMessage : string -> M -> M) (self : Cargo)
    (cargoArgs : option (list string)) (cargoEnv : Environment)
    (cargoCwd : option string) (m : M) (con : list string)
    (run : Process.run) :
  let result :=
    (getCargoArtifacts (P := with_run P run) onMessage self cargoArgs cargoEnv
       cargoCwd m con).2 in
  (forall exitCode, Process.settled run = Process.Close exitCode ->
     result = Return (flat_map Trace.contribution (Process.events run)))
  /\ (forall err, Process.settled run = Process.SpawnError err ->
        result = Throw (Js.ErrorWithCause "Cargo invocation failed." err)).
Proof.
  cbv zeta. rewrite getCargoArtifacts_trace. cbn [snd].
  split; intros x ->; reflexivity.
Qed.

Lemma getCargoArtifacts_outcome_witness :
  (getCargoArtifacts (P := Session.platform Session.failing_build) record_call
     Sample.cargo (Some ["build"]) [] None [] []).2 =
    Return [ {| a_fileName := "/p/target/debug/demo";
                a_name := "demo"; a_kind := Some "bin" |} ]
  /\ (getCargoArtifacts (P := Session.platform Session.missing_cargo) record_call
        Sample.cargo (Some ["build"]) [] None [] []).2 =
       Throw (Js.ErrorWithCause "Cargo invocation failed."
                (Js.MkError "spawn cargo ENOENT" (Some "ENOENT"))).
Proof.
  split.
  - etransitivity;
      [apply (proj1 (getCargoArtifacts_outcome
                       (Session.platform Session.failing_build) record_call
                       Sample.cargo (Some ["build"]) [] None [] []
                       Session.failing_build) (Some 101) eq_refl)
      | vm_compute; reflexivity].
  - apply (proj2 (getCargoArtifacts_outcome
                    (Session.platform Session.missing_cargo) record_call
                    Sample.cargo (Some ["build"]) [] None [] []
                    Session.missing_cargo) _ eq_refl).
Defined.

(** X3.  The diagnostic callback receives every stderr chunk and the
    rendered text of every compiler-message, unmodified and in arrival
    order, and nothing else, whether the run ends in a close or in a spawn
    error. *)
Theorem getCargoArtifacts_forwards_diagnostics (P : Platform) {M : Type}
    (onMessage : string -> M -> M) (self : Cargo)
    (cargoArgs : option (list string)) (cargoEnv : Environment)
    (cargoCwd : option string) (m : M) (con calls : list string)
    (run : Process.run) :
  (getCargoArtifacts (P := with_run P run) onMessage self cargoArgs cargoEnv
     cargoCwd m con).1.1 =
    fold_left (fun s d => onMessage d s)
      (omap Trace.diagnostic (Process.events run)) m
  /\ (getCargoArtifacts (P := with_run P run) record_call self cargoArgs
        cargoEnv cargoCwd calls con).1.1 =
       calls ++ omap Trace.diagnostic (Process.events run).
Proof.
  rewrite !getCargoArtifacts_trace. cbn [fst]. split; [reflexivity|].
  generalize (omap Trace.diagnostic (Process.events run)). intros ds.
  revert calls. induction ds as [|d ds IH]; intros calls.
  - simpl. now rewrite app_nil_r.
  - cbn [fold_left]. rewrite IH. unfold record_call.
    now rewrite <- app_assoc.
Qed.

(** X4.  A new-schema message and the old-schema message of the same build
    output, whose only file is the executable and not a [.dSYM] bundle, are
    collected alike. *)
Theorem schemas_agree {M : Type} (onMessage : string -> M -> M)
    (message : Message) (exe : string) (st : collector M) :
  filenames message = [exe] ->
  Js.endsWith exe ".dSYM" = false ->
  let schema x :=
    {| reason := reason message;
       target := target message;
       profile_test := profile_test message;
       executable := x;
       filenames := filenames message;
       message_rendered := message_rendered message |} in
  onCargoJson onMessage (JMessage (schema (Js.Value exe))) st =
    onCargoJson onMessage (JMessage (schema Js.Undefined)) st.
Proof.
  intros Hfiles Hexe. cbv zeta. unfold onCargoJson, collects.
  cbn [reason target profile_test executable filenames].
  destruct (String.eqb (reason message) "compiler-artifact"); [|reflexivity].
  destruct (_ || _); [|reflexivity].
  rewrite Hfiles. cbn [length filenamesLoop filenames target].
  cbn [lookup list_lookup]. now rewrite Hexe.
Qed.

Lemma schemas_agree_witness :
  onCargoJson record_call (JMessage Sample.artifact_message)
    (mkCollector [] []) =
  onCargoJson record_call
    (JMessage {| reason := "compiler-artifact";
                 target := target Sample.artifact_message;
                 profile_test := false;
                 executable := Js.Undefined;
                 filenames := ["/p/target/debug/demo"];
                 message_rendered := "" |})
    (mkCollector [] []).
Proof.
  apply (schemas_agree record_call Sample.artifact_message
           "/p/target/debug/demo" (mkCollector [] []) eq_refl eq_refl).
Defined.

(** ** Resolution: the log, the order of the candidates, the empty filter *)

Section ResolutionFacts.
Context {P : Platform}.

Local Abbreviation line a := (inspect a +:+ Js.LF).

Lemma appendArtifacts_fmap (out : OutputChannel.t)
    (arts : list CompilationArtifact) :
  appendArtifacts out arts = out ++ ((fun a => line a) <$> arts).
Proof.
  unfold appendArtifacts. revert out.
  induction arts as [|a arts IH]; intros out.
  - simpl. now rewrite app_nil_r.
  - cbn [fold_left]. rewrite IH. unfold OutputChannel.appendLine.
    rewrite fmap_cons. now rewrite <- app_assoc.
Qed.

(** The artifacts that [getProgramFromArtifacts] retains. *)
Lemma retained_spec (arts : list CompilationArtifact)
    (flt : option ArtifactFilter) :
  match flt with
  | Some f => List.filter (Resolver.keeps f) arts
  | None => arts
  end = filter (Resolver.satisfies flt) arts.
Proof.
  destruct flt as [f|]; [apply filter_keeps | now rewrite filter_no_filter].
Qed.

Lemma resolution_by_cases (arts : list CompilationArtifact)
    (flt : option ArtifactFilter) (out : OutputChannel.t) :
  (getProgramFromArtifacts arts flt out).2 =
    match filter (Resolver.satisfies flt) arts with
    | [] =>
        Throw (Js.Error "Cargo has produced no matching compilation artifacts.")
    | [a] => Return (a_fileName a)
    | _ :: _ :: _ =>
        Throw (Js.Error
                 "Cargo has produced more than one matching compilation artifact.")
    end.
Proof.
  unfold getProgramFromArtifacts. rewrite retained_spec.
  destruct (filter (Resolver.satisfies flt) arts) as [|a [|b rest]]; reflexivity.
Qed.

End ResolutionFacts.

(** X5.  Whether it returns or throws, resolution first appends to the
    output channel the heading "Raw artifacts:", one line per candidate, the
    heading "Filtered artifacts: " and one line per candidate that satisfies
    the filter, in that order and after what the channel held. *)
Theorem getProgramFromArtifacts_logs (P : Platform)
    (arts : list CompilationArtifact) (flt : option ArtifactFilter)
    (out : OutputChannel.t) :
  (getProgramFromArtifacts arts flt out).1 =
    out ++ ["Raw artifacts:" +:+ Js.LF]
      ++ ((fun a => inspect a +:+ Js.LF) <$> arts)
      ++ ["Filtered artifacts: " +:+ Js.LF]
      ++ ((fun a => inspect a +:+ Js.LF)
            <$> filter (Resolver.satisfies flt) arts).
Proof.
  unfold getProgramFromArtifacts. rewrite retained_spec.
  assert (Hlog : forall r : completion string,
            (appendArtifacts
               (OutputChannel.appendLine
                  (appendArtifacts
                     (OutputChannel.appendLine out "Raw artifacts:") arts)
                  "Filtered artifacts: ")
               (filter (Resolver.satisfies flt) arts), r).1 =
            out ++ ["Raw artifacts:" +:+ Js.LF]
              ++ ((fun a => inspect a +:+ Js.LF) <$> arts)
              ++ ["Filtered artifacts: " +:+ Js.LF]
              ++ ((fun a => inspect a +:+ Js.LF)
                    <$> filter (Resolver.satisfies flt) arts)).
  { intros r. cbn [fst]. rewrite !appendArtifacts_fmap.
    unfold OutputChannel.appendLine. now rewrite <- !app_assoc. }
  destruct (length (filter (Resolver.satisfies flt) arts) =? 0)%nat;
    [apply Hlog|].
  destruct (1 <? length (filter (Resolver.satisfies flt) arts))%nat;
    [apply Hlog|].
  destruct (filter (Resolver.satisfies flt) arts !! 0%nat); apply Hlog.
Qed.

(** X6.  The result of resolution does not depend on the order in which
    the candidates were emitted. *)
Theorem getProgramFromArtifacts_order_irrelevant (P : Platform)
    (arts arts' : list CompilationArtifact) (flt : option ArtifactFilter)
    (out out' : OutputChannel.t) :
  arts ≡ₚ arts' ->
  (getProgramFromArtifacts arts flt out).2 =
    (getProgramFromArtifacts arts' flt out').2.
Proof.
  intros Hperm. rewrite !resolution_by_cases.
  assert (Hkept : filter (Resolver.satisfies flt) arts
                    ≡ₚ filter (Resolver.satisfies flt) arts')
    by now rewrite Hperm.
  pose proof (Permutation_length Hkept) as Hlen.
  destruct (filter (Resolver.satisfies flt) arts) as [|a [|b rest]];
    destruct (filter (Resolver.satisfies flt) arts') as [|a' [|b' rest']];
    try discriminate Hlen; try reflexivity.
  apply Permutation_singleton_inj in Hkept. now subst a'.
Qed.

Lemma getProgramFromArtifacts_order_irrelevant_witness :
  (getProgramFromArtifacts (P := Sample.platform Sample.silent_run)
     (rev Sample.candidates)
     (Some {| f_name := Some "demo"; f_kind := None |}) []).2 =
    Return "/p/target/debug/demo".
Proof.
  etransitivity;
    [apply (getProgramFromArtifacts_order_irrelevant
              (Sample.platform Sample.silent_run) (rev Sample.candidates)
              Sample.candidates
              (Some {| f_name := Some "demo"; f_kind := None |}) [] []);
     apply Permutation_sym, Permutation_rev
    | reflexivity].
Defined.

(** X7.  A filter object with neither field set behaves as no filter at
    all: same log, same result. *)
Theorem getProgramFromArtifacts_empty_filter (P : Platform)
    (arts : list CompilationArtifact) (out : OutputChannel.t) :
  getProgramFromArtifacts arts
    (Some {| f_name := None; f_kind := None |}) out =
  getProgramFromArtifacts arts None out.
Proof.
  unfold getProgramFromArtifacts.
  assert (Hall : List.filter
                   (Resolver.keeps {| f_name := None; f_kind := None |}) arts
                 = arts).
  { induction arts as [|a arts IH]; [reflexivity|].
    cbn. now rewrite IH. }
  now rewrite Hall.
Qed.

(** ** Metadata retrieval *)

Section MetadataFacts.
Context {P : Platform}.

Local Abbreviation step := (onEvent onMetadataJson onMetadataStderr).

(** The variable [metadata] is untouched by events that deliver no
    object. *)
Lemma metadata_unchanged (evs : list Process.event)
    (st : listeners metadata_state) :
  (forall line, Process.StdoutLine line ∈ evs -> Trace.parsed line = None) ->
  (user (fold_left step evs st)).1 = (user st).1.
Proof.
  revert st. induction evs as [|e evs IH]; intros st Hnone; [reflexivity|].
  cbn [fold_left]. rewrite IH.
  - destruct e as [line|chunk]; [|reflexivity].
    pose proof (Hnone line (list_elem_of_here _ _)) as Hline.
    unfold Trace.parsed in Hline. cbn [onEvent]. unfold onLine.
    destruct (Js.startsWith line "{"); [|reflexivity].
    destruct (JSON_parse line); [discriminate | reflexivity].
  - intros line Hin. apply Hnone. now apply list_elem_of_further.
Qed.

(** The output channel receives the stderr chunks and nothing else. *)
Lemma metadata_output (evs : list Process.event)
    (st : listeners metadata_state) :
  (user (fold_left step evs st)).2 =
    (user st).2 ++ omap Trace.stderr_chunk evs.
Proof.
  revert st. induction evs as [|e evs IH]; intros st.
  - simpl. now rewrite app_nil_r.
  - cbn [fold_left]. rewrite IH. destruct e as [line|chunk].
    + cbn [onEvent omap list_omap Trace.stderr_chunk]. unfold onLine.
      destruct (Js.startsWith line "{"); [|reflexivity].
      destruct (JSON_parse line); reflexivity.
    + cbn. unfold OutputChannel.append. now rewrite <- app_assoc.
Qed.

End MetadataFacts.

(** The effects of [getLaunchConfigs] on the output channel and the
    console. *)
Lemma getLaunchConfigs_effects (P : Platform) (self : Cargo)
    (directory : option string) (out : OutputChannel.t) (con : list string)
    (run : Process.run) :
  (getLaunchConfigs (P := with_run P run) self directory out con).1 =
    (out ++ omap Trace.stderr_chunk (Process.events run),
     con ++ omap Trace.failure (Process.events run)).
Proof.
  unfold getLaunchConfigs, runCargo. cbn [spawn with_run].
  pose proof (metadata_output (P := with_run P run) (Process.events run)
                (mkListeners (None, out) con)) as Hout.
  pose proof (fold_onEvent_trace (P := with_run P run) onMetadataJson
                onMetadataStderr (Process.events run)
                (mkListeners (None, out) con)) as Hcon.
  apply (f_equal console) in Hcon. cbn [console user snd] in Hout, Hcon.
  destruct (Process.settled run) as [e|exitCode];
    destruct (user (fold_left _ (Process.events run) _)) as [metadata out']
      eqn:Huser; cbn [snd] in Hout; subst out'.
  - destruct (decide (Js.code e = Some "ENOENT")); cbn [fst];
      now rewrite Hcon.
  - destruct (exitCode_nonzero exitCode); [cbn [fst]; now rewrite Hcon|].
    destruct metadata as [[msg|md]|]; cbn [fst]; now rewrite Hcon.
Qed.

(** X8.  Whatever the outcome of enumerating launch configurations, the
    output channel has received exactly the stderr chunks of the tool, in
    order, and the console exactly one line per brace-prefixed stdout line
    that did not parse. *)
Theorem getLaunchConfigs_reports_stderr (P : Platform) (self : Cargo)
    (directory : option string) (out : OutputChannel.t) (con : list string)
    (run : Process.run) :
  (getLaunchConfigs (P := with_run P run) self directory out con).1.1 =
    out ++ omap Trace.stderr_chunk (Process.events run)
  /\ (getLaunchConfigs (P := with_run P run) self directory out con).1.2 =
       con ++ omap Trace.failure (Process.events run).
Proof. now rewrite getLaunchConfigs_effects. Qed.

(** X9.  When the tool exits with 0, the last object parsed from stdout is
    the metadata: if it is a metadata document, the configurations are the
    descriptors of its targets, package by package and target by target,
    each target on its own. *)
Theorem getLaunchConfigs_last_document (P : Platform) (self : Cargo)
    (directory : option string) (out : OutputChannel.t) (con : list string)
    (before after : list Process.event) (line : string) (md : Metadata) :
  Trace.parsed line = Some (JMetadata md) ->
  (forall l, Process.StdoutLine l ∈ after -> Trace.parsed l = None) ->
  (getLaunchConfigs
     (P := with_run P
             (Process.mkRun (before ++ Process.StdoutLine line :: after)
                (Process.Close (Some 0))))
     self directory out con).2 =
    Return
      (flat_map (fun pkg => flat_map (targetStep pkg directory []) (p_targets pkg))
         (packages md)).
Proof.
  intros Hline Hafter. rewrite getLaunchConfigs_with_run. cbv zeta.
  cbn [Process.settled Process.events exitCode_nonzero Z.eqb negb].
  rewrite fold_onEvent_line, (metadata_unchanged (P := P)) by exact Hafter.
  unfold onLine. unfold Trace.parsed in Hline.
  destruct (Js.startsWith line "{"); [|discriminate].
  destruct (JSON_parse line) as [obj|err]; [|discriminate].
  injection Hline as ->. cbn. now rewrite synthesis_flat_map.
Qed.

Lemma getLaunchConfigs_last_document_witness :
  (getLaunchConfigs (P := Session.platform Session.two_documents)
     Sample.cargo None [] []).2 =
    Return
      (flat_map (fun pkg => flat_map (targetStep pkg None []) (p_targets pkg))
         (packages Session.other_document)).
Proof.
  apply (getLaunchConfigs_last_document
           (Session.platform Session.two_documents) Sample.cargo None [] []
           [Process.StdoutLine Sample.metadata_line;
            Process.StderrData "warning: unused manifest key"]
           [Process.StdoutLine Sample.plain_line]
           Session.other_line Session.other_document eq_refl).
  intros l Hl. apply list_elem_of_singleton in Hl. injection Hl as ->.
  reflexivity.
Defined.

(** X10.  A spawn error whose code is not [ENOENT] is rethrown as it is,
    without a wrapper and without the default configurations. *)
Theorem getLaunchConfigs_rethrows (P : Platform) (self : Cargo)
    (directory : option string) (out : OutputChannel.t) (con : list string)
    (run : Process.run) (err : Js.error) :
  Process.settled run = Process.SpawnError err ->
  Js.code err <> Some "ENOENT" ->
  (getLaunchConfigs (P := with_run P run) self directory out con).2 = Throw err.
Proof.
  intros Hsettled Hcode. rewrite getLaunchConfigs_with_run. cbv zeta.
  rewrite Hsettled. now rewrite decide_False.
Qed.

Lemma getLaunchConfigs_rethrows_witness :
  (getLaunchConfigs (P := Session.platform Session.denied_cargo) Sample.cargo
     None [] []).2 =
    Throw (Js.MkError "spawn cargo EACCES" (Some "EACCES")).
Proof.
  apply (getLaunchConfigs_rethrows (Session.platform Session.denied_cargo)
           Sample.cargo None [] [] Session.denied_cargo _ eq_refl).
  discriminate.
Defined.

(** ** The shape and the number of the descriptors *)

Section DescriptorFacts.
Variable pkg : Package.
Variable directory : option string.
Variable target : MetadataTarget.

Local Abbreviation step := (kindStep pkg directory target).
Local Abbreviation good := (Descriptor.scoped pkg directory target).

Lemma addConfig_scoped (name : string) (base : list string) (kind : string)
    (configs : list DebugConfiguration) :
  kind = "lib" \/ kind ∈ mt_kind target ->
  Forall good configs ->
  Forall good
    (addConfig pkg directory name base
       {| f_name := Some (mt_name target); f_kind := Some kind |} configs).
Proof.
  intros Hkind Hconfigs. unfold addConfig. apply Forall_app. split; [exact Hconfigs|].
  apply Forall_cons. split; [|constructor].
  unfold Descriptor.scoped. cbn.
  repeat (split; [reflexivity|]). eexists. split; [reflexivity|]. cbn.
  split; [apply last_snoc|]. split; [reflexivity|]. split; [reflexivity|].
  exists kind. split; [reflexivity | exact Hkind].
Qed.

Lemma kindStep_scoped (kind : string) (libAdded : bool)
    (configs : list DebugConfiguration) :
  kind ∈ mt_kind target ->
  Forall good configs ->
  Forall good (step (libAdded, configs) kind).2.
Proof.
  intros Hkind Hconfigs. unfold kindStep.
  destruct (isLibraryCase kind).
  - destruct libAdded; cbn [negb snd]; [exact Hconfigs|].
    apply addConfig_scoped; [now left | exact Hconfigs].
  - destruct (isExecutableCase kind).
    + cbn [snd]. apply addConfig_scoped; [now right|].
      apply addConfig_scoped; [now right | exact Hconfigs].
    + destruct (isTestCase kind); cbn [snd]; [|exact Hconfigs].
      apply addConfig_scoped; [now right | exact Hconfigs].
Qed.

Lemma fold_kindStep_scoped (kinds : list string) (libAdded : bool)
    (configs : list DebugConfiguration) :
  (forall kind, kind ∈ kinds -> kind ∈ mt_kind target) ->
  Forall good configs ->
  Forall good (fold_left step kinds (libAdded, configs)).2.
Proof.
  revert libAdded configs.
  induction kinds as [|kind kinds IH]; intros libAdded configs Hsub Hconfigs;
    [exact Hconfigs|].
  cbn [fold_left].
  pose proof (kindStep_scoped kind libAdded configs
                (Hsub kind (list_elem_of_here _ _)) Hconfigs) as Hstep.
  destruct (step (libAdded, configs) kind) as [flag configs'].
  apply IH; [|exact Hstep].
  intros k Hk. apply Hsub. now apply list_elem_of_further.
Qed.

Lemma targetStep_scoped : Forall good (targetStep pkg directory [] target).
Proof.
  unfold targetStep. apply fold_kindStep_scoped; [auto | constructor].
Qed.

(** The three families of kinds do not overlap. *)
Lemma library_kind_only (kind : string) :
  isLibraryCase kind = true ->
  isExecutableCase kind = false /\ isTestCase kind = false.
Proof.
  unfold isLibraryCase. rewrite !orb_true_iff.
  intros [[[[H|H]|H]|H]|H]; apply String.eqb_eq in H; subst kind;
    split; reflexivity.
Qed.

Lemma executable_kind_only (kind : string) :
  isExecutableCase kind = true -> isTestCase kind = false.
Proof.
  unfold isExecutableCase. rewrite orb_true_iff.
  intros [H|H]; apply String.eqb_eq in H; subst kind; reflexivity.
Qed.

Lemma fold_kindStep_length (kinds : list string) (libAdded : bool)
    (configs : list DebugConfiguration) :
  length (fold_left step kinds (libAdded, configs)).2 =
    (length configs
     + (if libAdded then 0 else if existsb isLibraryCase kinds then 1 else 0)
     + 2 * length (List.filter isExecutableCase kinds)
     + length (List.filter isTestCase kinds))%nat.
Proof.
  revert libAdded configs.
  induction kinds as [|kind kinds IH]; intros libAdded configs.
  - simpl. destruct libAdded; lia.
  - cbn [fold_left existsb List.filter]. unfold kindStep at 2.
    destruct (isLibraryCase kind) eqn:Hlib.
    + destruct (library_kind_only kind Hlib) as [-> ->].
      destruct libAdded; cbn [negb orb]; rewrite IH; unfold addConfig;
        rewrite ?length_app; simpl; lia.
    + destruct (isExecutableCase kind) eqn:Hexe.
      * rewrite (executable_kind_only kind Hexe). rewrite IH.
        unfold addConfig. rewrite !length_app. simpl. lia.
      * destruct (isTestCase kind); rewrite IH; unfold addConfig;
          rewrite ?length_app; simpl; lia.
Qed.

End DescriptorFacts.

(** X12.  Every configuration that enumeration returns on success, other
    than the default set, is a descriptor of a target of a package of a
    metadata document parsed from stdout: a cargo launch whose build
    arguments end with [--package=<package name>], whose filter names the
    target, and whose [cwd] is the directory given, if any. *)
Theorem getLaunchConfigs_scoped (P : Platform) (self : Cargo)
    (directory : option string) (out : OutputChannel.t) (con : list string)
    (run : Process.run) (configs : list DebugConfiguration) :
  (getLaunchConfigs (P := with_run P run) self directory out con).2 =
    Return configs ->
  configs = DEFAULT_LAUNCH_CONFIGS
  \/ exists md,
       (exists line, Process.StdoutLine line ∈ Process.events run
                     /\ Trace.parsed line = Some (JMetadata md))
       /\ forall c, c ∈ configs ->
            exists pkg target,
              pkg ∈ packages md /\ target ∈ p_targets pkg
              /\ Descriptor.scoped pkg directory target c.
Proof.
  rewrite getLaunchConfigs_with_run. cbv zeta.
  destruct (Process.settled run) as [e|exitCode].
  { destruct (decide _); [|discriminate]. intros [= <-]. now left. }
  destruct (exitCode_nonzero exitCode); [intros [= <-]; now left|].
  match goal with
  | |- context [(user ?s).1] => destruct ((user s).1) as [[msg|md]|] eqn:Hmd
  end; try discriminate.
  intros [= <-]. right. exists md. split.
  - rewrite (fold_onEvent_trace (P := P)) in Hmd. cbn [user] in Hmd.
    revert Hmd. set (st := (@None json, out)).
    induction (Process.events run) as [|e evs IH] using rev_ind;
      intros Hmd; [discriminate Hmd|].
    rewrite omap_app, fold_left_app in Hmd.
    destruct e as [line|chunk].
    + cbn [omap list_omap Trace.delivery] in Hmd.
      destruct (Trace.parsed line) as [obj|] eqn:Hline.
      * cbn in Hmd. injection Hmd as ->. exists line.
        split; [apply elem_of_app; right; apply list_elem_of_here | exact Hline].
      * cbn in Hmd. destruct (IH Hmd) as [l [Hin Hl]].
        exists l. split; [apply elem_of_app; now left | exact Hl].
    + cbn in Hmd. destruct (IH Hmd) as [l [Hin Hl]].
      exists l. split; [apply elem_of_app; now left | exact Hl].
  - intros c Hc. rewrite synthesis_flat_map in Hc. cbn [app] in Hc.
    apply list_elem_of_In, in_flat_map in Hc as [pkg [Hpkg Hc]].
    apply in_flat_map in Hc as [target [Htarget Hc]].
    exists pkg, target. split; [now apply list_elem_of_In|].
    split; [now apply list_elem_of_In|].
    pose proof (targetStep_scoped pkg directory target) as Hall.
    rewrite List.Forall_forall in Hall. now apply Hall.
Qed.

Lemma getLaunchConfigs_scoped_witness :
  let configs :=
    flat_map (fun pkg => flat_map (targetStep pkg None []) (p_targets pkg))
      (packages Sample.metadata_document) in
  configs = DEFAULT_LAUNCH_CONFIGS
  \/ exists md,
       (exists line, Process.StdoutLine line ∈ Process.events Sample.metadata_run
                     /\ Trace.parsed (P := Sample.platform Sample.metadata_run)
                          line = Some (JMetadata md))
       /\ forall c, c ∈ configs ->
            exists pkg target,
              pkg ∈ packages md /\ target ∈ p_targets pkg
              /\ Descriptor.scoped pkg None target c.
Proof.
  apply (getLaunchConfigs_scoped (Sample.platform Sample.metadata_run)
           Sample.cargo None [] [] Sample.metadata_run).
  vm_compute. reflexivity.
Defined.

(** X13.  A target gets one descriptor for all its library kinds together,
    two for each [bin] or [example] kind and one for each [bench] or [test]
    kind; kinds outside these families, such as [proc-macro], [cdylib] or
    [custom-build], add none. *)
Theorem targetStep_count (pkg : Package) (directory : option string)
    (target : MetadataTarget) (configs : list DebugConfiguration) :
  length (targetStep pkg directory configs target) =
    (length configs + Descriptor.expected_count (mt_kind target))%nat
  /\ (Forall (fun kind => isLibraryCase kind = false
                          /\ isExecutableCase kind = false
                          /\ isTestCase kind = false) (mt_kind target) ->
      targetStep pkg directory configs target = configs).
Proof.
  split.
  - unfold targetStep, Descriptor.expected_count.
    rewrite fold_kindStep_length. lia.
  - unfold targetStep.
    assert (Hfold : forall kinds flag,
              Forall (fun kind => isLibraryCase kind = false
                                  /\ isExecutableCase kind = false
                                  /\ isTestCase kind = false) kinds ->
              fold_left (kindStep pkg directory target) kinds (flag, configs) =
                (flag, configs)).
    { induction kinds as [|kind kinds IH]; intros flag Hother; [reflexivity|].
      apply Forall_cons in Hother as [(Hlib & Hexe & Htest) Hother].
      cbn [fold_left]. unfold kindStep at 2. rewrite Hlib, Hexe, Htest.
      now apply IH. }
    intros Hother. now rewrite Hfold.
Qed.

Lemma targetStep_count_witness :
  targetStep Sample.demo_package None []
    {| mt_name := "gen"; mt_kind := ["proc-macro"; "cdylib"] |} = [].
Proof.
  apply (proj2 (targetStep_count Sample.demo_package None
                  {| mt_name := "gen"; mt_kind := ["proc-macro"; "cdylib"] |}
                  [])).
  repeat constructor.
Defined.

(** X14.  A target whose kind list is exactly ["bench"] gets the one
    descriptor "Debug benchmark '<name>'", and one whose kind list is
    exactly ["test"] the one descriptor "Debug integration test '<name>'";
    both build with [test --no-run] and select the target by its kind. *)
Theorem test_descriptors (pkg : Package) (directory : option string)
    (target : MetadataTarget) (configs : list DebugConfiguration) :
  let descriptor name kind :=
    {| dc_type := "lldb";
       dc_request := "launch";
       dc_name := name;
       dc_program := None;
       dc_cargo :=
         Some {| cargo_args :=
                   ["test"; "--no-run";
                    "--" +:+ kind +:+ "=" +:+ mt_name target;
                    "--package=" +:+ p_name pkg];
                 cargo_filter := {| f_name := Some (mt_name target);
                                    f_kind := Some kind |};
                 cargo_cwd := if Js.truthy directory then directory else None |};
       dc_args := [];
       dc_cwd := "${workspaceFolder}" |} in
  (mt_kind target = ["bench"] ->
   targetStep pkg directory configs target =
     configs ++
       [descriptor ("Debug benchmark '" +:+ mt_name target +:+ "'") "bench"])
  /\ (mt_kind target = ["test"] ->
      targetStep pkg directory configs target =
        configs ++
          [descriptor ("Debug integration test '" +:+ mt_name target +:+ "'")
             "test"]).
Proof.
  cbv zeta. unfold targetStep.
  split; intros ->; cbn [fold_left]; unfold kindStep, addConfig; reflexivity.
Qed.

Lemma test_descriptors_witness :
  dc_name <$> targetStep Sample.demo_package None []
                {| mt_name := "it"; mt_kind := ["test"] |} =
    ["Debug integration test 'it'"].
Proof.
  rewrite (proj2 (test_descriptors Sample.demo_package None
                    {| mt_name := "it"; mt_kind := ["test"] |} []) eq_refl).
  reflexivity.
Defined.

(** X15.  The filter of a descriptor retains the artifact that a
    new-schema message of the descriptor's target yields (the target's name
    with the first of its kinds) exactly when the filter's kind is that
    first kind.  So the library descriptor, whose filter kind is always
    "lib", retains it only for a target whose first kind is [lib]. *)
Theorem descriptor_retains_first_kind (pkg : Package)
    (directory : option string) (mtarget : MetadataTarget)
    (c : DebugConfiguration) (cargo : CargoSection) (message : Message)
    (exe : string) (a : CompilationArtifact) :
  c ∈ targetStep pkg directory [] mtarget ->
  dc_cargo c = Some cargo ->
  t_name (target message) = mt_name mtarget ->
  t_kind (target message) = mt_kind mtarget ->
  executable message = Js.Value exe ->
  a ∈ Spec.carried message ->
  (Resolver.keeps (cargo_filter cargo) a = true
   <-> f_kind (cargo_filter cargo) = head (mt_kind mtarget))
  /\ (Spec.isLibraryDescriptor c = true ->
      (Resolver.keeps (cargo_filter cargo) a = true
       <-> head (mt_kind mtarget) = Some "lib")).
Proof.
  intros Hc Hcargo Hname Hkind Hexe Ha.
  unfold Spec.carried in Ha. rewrite Hexe, Hname, Hkind in Ha.
  apply list_elem_of_singleton in Ha. subst a.
  pose proof (targetStep_scoped pkg directory mtarget) as Hall.
  rewrite List.Forall_forall in Hall.
  destruct (Hall c (proj1 (list_elem_of_In _ _) Hc))
    as (_ & _ & _ & _ & _ & cargo' & Hcargo' & _ & _ & Hfname & k & Hfkind & _).
  rewrite Hcargo in Hcargo'. injection Hcargo' as <-.
  assert (Hkeeps : Resolver.keeps (cargo_filter cargo)
                     {| a_fileName := exe; a_name := mt_name mtarget;
                        a_kind := head (mt_kind mtarget) |} = true
                   <-> f_kind (cargo_filter cargo) = head (mt_kind mtarget)).
  { unfold Resolver.keeps. rewrite Hfname, Hfkind. cbn [a_name a_kind].
    rewrite String.eqb_refl. cbn [negb].
    destruct (head (mt_kind mtarget)) as [first|]; [|split; discriminate].
    destruct (String.eqb_spec first k) as [->|Hne]; cbn [negb].
    - split; reflexivity.
    - split; [discriminate | congruence]. }
  split; [exact Hkeeps|].
  intros Hlib. rewrite Hkeeps.
  rewrite (targetStep_library_descriptors pkg directory mtarget c Hc Hlib)
    in Hcargo.
  injection Hcargo as <-. cbn [cargo_filter f_kind].
  split; congruence.
Qed.

Lemma descriptor_retains_first_kind_witness :
  Resolver.keeps {| f_name := Some "demo"; f_kind := Some "lib" |}
    {| a_fileName := "/p/target/debug/deps/demo-1f2e";
       a_name := "demo"; a_kind := Some "rlib" |} = true
  <-> head ["rlib"] = Some "lib".
Proof.
  apply (proj2 (descriptor_retains_first_kind Sample.demo_package None
                  Sample.rlib_target
                  (Spec.libraryDescriptor Sample.demo_package None
                     Sample.rlib_target)
                  {| cargo_args :=
                       ["test"; "--no-run"; "--lib"; "--package=demo"];
                     cargo_filter := {| f_name := Some "demo";
                                        f_kind := Some "lib" |};
                     cargo_cwd := None |}
                  {| reason := "compiler-artifact";
                     target := {| t_name := "demo"; t_kind := ["rlib"];
                                  t_crate_types := ["rlib"] |};
                     profile_test := true;
                     executable := Js.Value "/p/target/debug/deps/demo-1f2e";
                     filenames := [];
                     message_rendered := "" |}
                  "/p/target/debug/deps/demo-1f2e"
                  {| a_fileName := "/p/target/debug/deps/demo-1f2e";
                     a_name := "demo"; a_kind := Some "rlib" |}
                  ltac:(vm_compute; apply list_elem_of_here)
                  eq_refl eq_refl eq_refl eq_refl
                  ltac:(vm_compute; apply list_elem_of_here))).
  reflexivity.
Defined.

(** ** The pseudo-terminal and the whole resolution *)

Lemma replaceNewlines_crlf_only (s : string) (after_cr : bool) :
  Trace.crlf_only after_cr (Js.replaceNewlines s Js.CRLF) = true.
Proof.
  revert after_cr. induction s as [|c s IH]; intros after_cr; [reflexivity|].
  cbn [Js.replaceNewlines].
  destruct (Ascii.eqb c (ascii_of_nat 10)) eqn:Hc.
  - change (Js.CRLF +:+ Js.replaceNewlines s Js.CRLF)
      with (String (ascii_of_nat 13)
              (String (ascii_of_nat 10) (Js.replaceNewlines s Js.CRLF))).
    cbn. apply IH.
  - cbn [Trace.crlf_only]. rewrite Hc. apply IH.
Qed.

Lemma fireMessage_fold (ds written : list string) :
  fold_left (fun s d => fireMessage d s) ds written =
    written ++ ((fun d => Js.replaceNewlines d Js.CRLF) <$> ds).
Proof.
  revert written. induction ds as [|d ds IH]; intros written.
  - simpl. now rewrite app_nil_r.
  - cbn [fold_left]. rewrite IH. unfold fireMessage.
    rewrite fmap_cons. now rewrite <- app_assoc.
Qed.

(** [open] read off the events of the run. *)
Lemma open_trace (P : Platform) (self : Cargo) (taskDef : TaskDefinition)
    (heap : gmap loc (list string)) (out : OutputChannel.t)
    (con : list string) (run : Process.run) :
  let task := open (P := with_run P run) self taskDef heap out con in
  let relayed :=
    (fun d => Js.replaceNewlines d Js.CRLF)
      <$> omap Trace.diagnostic (Process.events run) in
  o_console task = con ++ omap Trace.failure (Process.events run)
  /\ exists announcement,
       match Process.settled run with
       | Process.Close _ =>
           o_written task = announcement :: relayed
           /\ o_closed task = [0]
           /\ o_artifacts task =
                Return (flat_map Trace.contribution (Process.events run))
           /\ o_output task = out
       | Process.SpawnError e =>
           let err := Js.ErrorWithCause "Cargo invocation failed." e in
           o_written task =
             announcement :: relayed
               ++ [Js.replaceNewlines (formatError err) Js.CRLF]
           /\ o_closed task = [1]
           /\ o_artifacts task = Throw err
           /\ o_output task = out ++ [formatError err +:+ Js.LF]
       end.
Proof.
  cbv zeta. unfold open.
  destruct (td_args taskDef) as [l|];
    rewrite getCargoArtifacts_trace, fireMessage_fold;
    destruct (Process.settled run) as [e|exitCode]; cbn;
    (split; [reflexivity|]); eexists; repeat split.
Qed.

(** X16.  [open] fires [doneEmitter] exactly once: with 0 when the process
    closes, whatever its exit code, leaving the collected artifacts in
    [artifacts] and the output channel alone; with 1 when the process cannot
    be spawned, leaving the wrapped error in [artifacts] and its formatted
    text both on the terminal, as the last string written, and on the
    output channel. *)
Theorem open_reports_outcome (P : Platform) (self : Cargo)
    (taskDef : TaskDefinition) (heap : gmap loc (list string))
    (out : OutputChannel.t) (con : list string) (run : Process.run) :
  let task := open (P := with_run P run) self taskDef heap out con in
  (forall exitCode, Process.settled run = Process.Close exitCode ->
     o_closed task = [0]
     /\ o_artifacts task =
          Return (flat_map Trace.contribution (Process.events run))
     /\ o_output task = out)
  /\ (forall e, Process.settled run = Process.SpawnError e ->
        let err := Js.ErrorWithCause "Cargo invocation failed." e in
        o_closed task = [1]
        /\ o_artifacts task = Throw err
        /\ o_output task = out ++ [formatError err +:+ Js.LF]
        /\ last (o_written task) =
             Some (Js.replaceNewlines (formatError err) Js.CRLF)).
Proof.
  cbv zeta.
  destruct (open_trace P self taskDef heap out con run)
    as [_ [announcement Htask]].
  split.
  - intros exitCode Hsettled. rewrite Hsettled in Htask.
    destruct Htask as (_ & Hclosed & Harts & Hout). now repeat split.
  - intros e Hsettled. rewrite Hsettled in Htask. cbv zeta in Htask.
    destruct Htask as (Hwritten & Hclosed & Harts & Hout).
    repeat split; try assumption.
    rewrite Hwritten, app_comm_cons. apply last_snoc.
Qed.

Lemma open_reports_outcome_witness :
  o_closed (open (P := Session.platform Session.failing_build) Sample.cargo
              Sample.task Sample.heap [] []) = [0]
  /\ o_closed (open (P := Session.platform Session.missing_cargo) Sample.cargo
                 Sample.task Sample.heap [] []) = [1].
Proof.
  split.
  - apply (proj1 (open_reports_outcome
                    (Session.platform Session.failing_build) Sample.cargo
                    Sample.task Sample.heap [] [] Session.failing_build)
             (Some 101) eq_refl).
  - apply (proj2 (open_reports_outcome
                    (Session.platform Session.missing_cargo) Sample.cargo
                    Sample.task Sample.heap [] [] Session.missing_cargo)
             _ eq_refl).
Defined.

(** X17.  After the announcement of the command, everything [open] writes
    to the terminal is a diagnostic, or the formatted error, with each line
    feed turned into carriage return and line feed: no string written has a
    line feed that does not follow a carriage return. *)
Theorem open_terminal_newlines (P : Platform) (self : Cargo)
    (taskDef : TaskDefinition) (heap : gmap loc (list string))
    (out : OutputChannel.t) (con : list string) (run : Process.run) :
  let task := open (P := with_run P run) self taskDef heap out con in
  exists announcement rest,
    o_written task = announcement :: rest
    /\ Forall (fun s => Trace.crlf_only false s = true) rest
    /\ (fun d => Js.replaceNewlines d Js.CRLF)
         <$> omap Trace.diagnostic (Process.events run) `prefix_of` rest.
Proof.
  cbv zeta.
  destruct (open_trace P self taskDef heap out con run)
    as [_ [announcement Htask]].
  assert (Hrelayed : forall ds : list string,
            Forall (fun s => Trace.crlf_only false s = true)
              ((fun d => Js.replaceNewlines d Js.CRLF) <$> ds)).
  { intros ds. apply List.Forall_forall. intros s Hs.
    apply list_elem_of_In, list_elem_of_fmap in Hs as [d [-> _]].
    apply replaceNewlines_crlf_only. }
  destruct (Process.settled run) as [e|exitCode].
  - cbv zeta in Htask. destruct Htask as (Hwritten & _).
    eexists _, _. split; [exact Hwritten|]. split.
    + apply Forall_app. split; [apply Hrelayed|].
      repeat constructor. apply replaceNewlines_crlf_only.
    + now apply prefix_app_r.
  - destruct Htask as (Hwritten & _).
    eexists _, _. split; [exact Hwritten|]. split; [apply Hrelayed|].
    reflexivity.
Qed.

(** X18.  Resolving a program from a cargo configuration composes the
    collection and the resolution: when the process closes, whatever its
    exit code, the result is that of resolving the artifacts contributed by
    its stdout under the filter of the configuration; when the process
    cannot be spawned, the method throws "Cargo task failed." caused by
    "Cargo invocation failed." caused by the spawn error. *)
Theorem getProgramFromCargoConfig_result (P : Platform) (self : Cargo)
    (cargoConfig : CargoConfig) (taskDef : TaskDefinition)
    (heap : gmap loc (list string)) (out : OutputChannel.t)
    (con : list string) (run : Process.run) :
  let r :=
    getProgramFromCargoConfig (P := with_run P run) self cargoConfig taskDef
      heap out con in
  (forall exitCode, Process.settled run = Process.Close exitCode ->
     g_result r =
       match filter (Resolver.satisfies (cc_filter cargoConfig))
               (flat_map Trace.contribution (Process.events run)) with
       | [] =>
           Throw (Js.Error
                    "Cargo has produced no matching compilation artifacts.")
       | [a] => Return (a_fileName a)
       | _ :: _ :: _ =>
           Throw (Js.Error
                    "Cargo has produced more than one matching compilation artifact.")
       end)
  /\ (forall e, Process.settled run = Process.SpawnError e ->
        g_result r =
          Throw (Js.ErrorWithCause "Cargo task failed."
                   (Js.ErrorWithCause "Cargo invocation failed." e))).
Proof.
  cbv zeta. unfold getProgramFromCargoConfig.
  destruct (open_trace P self taskDef heap out con run)
    as [_ [announcement Htask]].
  split.
  - intros exitCode Hsettled. rewrite Hsettled in Htask.
    destruct Htask as (_ & _ & -> & _). cbn [cc_filter].
    pose proof (resolution_by_cases (P := with_run P run)
                  (flat_map Trace.contribution (Process.events run))
                  (cc_filter cargoConfig)
                  (o_output (open (P := with_run P run) self taskDef heap out
                               con))) as Hres.
    destruct (getProgramFromArtifacts _ _ _) as [out' res]. exact Hres.
  - intros e Hsettled. rewrite Hsettled in Htask. cbv zeta in Htask.
    destruct Htask as (_ & _ & -> & _). reflexivity.
Qed.

Lemma getProgramFromCargoConfig_result_witness :
  g_result (getProgramFromCargoConfig
              (P := Session.platform Session.failing_build) Sample.cargo
              Session.config Sample.task Sample.heap [] []) =
    Return "/p/target/debug/demo"
  /\ g_result (getProgramFromCargoConfig
                 (P := Session.platform Session.missing_cargo) Sample.cargo
                 Session.config Sample.task Sample.heap [] []) =
       Throw (Js.ErrorWithCause "Cargo task failed."
                (Js.ErrorWithCause "Cargo invocation failed."
                   (Js.MkError "spawn cargo ENOENT" (Some "ENOENT")))).
Proof.
  split.
  - etransitivity;
      [apply (proj1 (getProgramFromCargoConfig_result
                       (Session.platform Session.failing_build) Sample.cargo
                       Session.config Sample.task Sample.heap [] []
                       Session.failing_build) (Some 101) eq_refl)
      | vm_compute; reflexivity].
  - apply (proj2 (getProgramFromCargoConfig_result
                    (Session.platform Session.missing_cargo) Sample.cargo
                    Session.config Sample.task Sample.heap [] []
                    Session.missing_cargo) _ eq_refl).
Defined.

(** ** The directory of the metadata run *)

(** The request that [getLaunchConfigs] has [runCargo] hand to
    [cp.spawn]. *)
Lemma getLaunchConfigs_request (P : Platform) (self : Cargo)
    (directory : option string) (out : OutputChannel.t) (con : list string) :
  let request :=
    {| Process.r_command := default "cargo" (config_cargo self);
       Process.r_args := Some ["metadata"; "--no-deps"; "--format-version=1"];
       Process.r_cwd := or_else directory (workspaceFolder_fsPath self);
       Process.r_env := mergedEnvironment [] |} in
  getLaunchConfigs self directory out con =
    getLaunchConfigs (P := with_run P (spawn request)) self directory out con.
Proof. reflexivity. Qed.

(** X11.  An empty directory string is a directory not given: the tool is
    spawned in the workspace folder, no descriptor returned has a cargo
    [cwd], and the whole call equals the call without a directory. *)
Theorem getLaunchConfigs_empty_directory (P : Platform) (self : Cargo)
    (out : OutputChannel.t) (con : list string) :
  let request :=
    {| Process.r_command := default "cargo" (config_cargo self);
       Process.r_args := Some ["metadata"; "--no-deps"; "--format-version=1"];
       Process.r_cwd := workspaceFolder_fsPath self;
       Process.r_env := mergedEnvironment [] |} in
  getLaunchConfigs self (Some EmptyString) out con =
    getLaunchConfigs (P := with_run P (spawn request)) self (Some EmptyString)
      out con
  /\ (forall configs c cargo,
        (getLaunchConfigs self (Some EmptyString) out con).2 = Return configs ->
        c ∈ configs ->
        dc_cargo c = Some cargo ->
        cargo_cwd cargo = None)
  /\ getLaunchConfigs self (Some EmptyString) out con =
       getLaunchConfigs self None out con.
Proof.
  cbv zeta. split; [apply getLaunchConfigs_request|]. split; [|reflexivity].
  intros configs c cargo Hresult Hc Hcargo.
  rewrite (getLaunchConfigs_request P self (Some EmptyString) out con)
    in Hresult.
  cbv zeta in Hresult. rewrite getLaunchConfigs_with_run in Hresult.
  cbv zeta in Hresult.
  assert (Hdefault : c ∈ DEFAULT_LAUNCH_CONFIGS -> cargo_cwd cargo = None).
  { intros Hin. apply list_elem_of_singleton in Hin. subst c. discriminate. }
  destruct (Process.settled _) as [e|exitCode].
  { destruct (decide _); [|discriminate]. injection Hresult as <-.
    now apply Hdefault. }
  destruct (exitCode_nonzero exitCode);
    [injection Hresult as <-; now apply Hdefault|].
  match type of Hresult with
  | context [(user ?s).1] => destruct ((user s).1) as [[msg|md]|]
  end; try discriminate.
  injection Hresult as <-. rewrite synthesis_flat_map in Hc. cbn [app] in Hc.
  apply list_elem_of_In, in_flat_map in Hc as [pkg [_ Hc]].
  apply in_flat_map in Hc as [target [_ Hc]].
  pose proof (targetStep_scoped pkg (Some EmptyString) target) as Hall.
  rewrite List.Forall_forall in Hall.
  destruct (Hall c Hc)
    as (_ & _ & _ & _ & _ & cargo' & Hcargo' & _ & Hcwd & _).
  rewrite Hcargo in Hcargo'. injection Hcargo' as <-. exact Hcwd.
Qed.

Lemma getLaunchConfigs_empty_directory_witness :
  cargo_cwd <$>
    dc_cargo (Spec.libraryDescriptor Sample.demo_package (Some EmptyString)
                Sample.lib_target) = Some None.
Proof.
  apply (f_equal Some).
  apply (proj1 (proj2 (getLaunchConfigs_empty_directory
                         (Sample.platform Sample.metadata_run) Sample.cargo
                         [] []))
           (flat_map (fun pkg => flat_map (targetStep pkg (Some EmptyString) [])
                                   (p_targets pkg))
              (packages Sample.metadata_document))
           (Spec.libraryDescriptor Sample.demo_package (Some EmptyString)
              Sample.lib_target)).
  - vm_compute. reflexivity.
  - vm_compute. apply list_elem_of_here.
  - reflexivity.
Defined.
